(** * Google-Scraper: a shallow embedding of [src/api/index.js]

    The worker has two layers: a request router ([fetch]) and four
    extraction routines ([scrapeGoogleSearch], [scrapeGoogleImages],
    [scrapeGoogleVideos], [scrapeGoogleNews]).  Each routine drives a remote
    browser through a fixed sequence of awaited calls and runs one callback
    against the rendered DOM.

    The embedding has three parts:
    - a DOM (a tree of elements and text nodes) with the selector queries the
      callbacks use, returning elements in document order;
    - the callbacks themselves, written with [forEach] and [push] as the
      source has them;
    - the awaited browser calls as a small state-and-exception monad whose
      state is the log of calls made so far, the browser being an oracle that
      decides which call rejects. *)

From Stdlib Require Import List String Ascii Bool Arith ZArith NArith Lia.
From Stdlib Require Import Sorted.
Import ListNotations.

Local Open Scope string_scope.
Local Open Scope list_scope.

Set Implicit Arguments.
Set Warnings "-register-all".

(* ================================================================== *)
(** ** JavaScript strings and truthiness *)

Module Js.

(** Strings are sequences of bytes (UTF-8).  [is_space] is the ASCII part
    of what [String.prototype.trim] strips. *)
Definition is_space (c : ascii) : bool :=
  let n := nat_of_ascii c in
  (Nat.eqb n 9 || Nat.eqb n 10 || Nat.eqb n 11 || Nat.eqb n 12
   || Nat.eqb n 13 || Nat.eqb n 32)%bool.

Definition is_empty (s : string) : bool :=
  match s with EmptyString => true | String _ _ => false end.

Fixpoint trimStart (s : string) : string :=
  match s with
  | EmptyString => EmptyString
  | String c r => if is_space c then trimStart r else s
  end.

Fixpoint trimEnd (s : string) : string :=
  match s with
  | EmptyString => EmptyString
  | String c r =>
      let r' := trimEnd r in
      if (is_space c && is_empty r')%bool then EmptyString else String c r'
  end.

Definition trim (s : string) : string := trimEnd (trimStart s).

(** [hay.includes(needle)] *)
Fixpoint includes (needle hay : string) : bool :=
  (String.prefix needle hay
   || match hay with
      | EmptyString => false
      | String _ r => includes needle r
      end)%bool.

(** A value that is a string or [undefined] (the result of [x?.prop]). *)
Definition ostring := option string.

Definition truthy (v : ostring) : bool :=
  match v with
  | Some s => negb (is_empty s)
  | None => false
  end.

(** [v || d] with [d] a string. *)
Definition or_str (v : ostring) (d : string) : string :=
  match v with
  | Some (String c r) => String c r
  | _ => d
  end.

(** [v || null] *)
Definition or_null (v : ostring) : option string :=
  match v with
  | Some (String c r) => Some (String c r)
  | _ => None
  end.

(** [n || null] for a number. *)
Definition num_or_null (n : N) : option N :=
  if N.eqb n 0 then None else Some n.

(** [Array.prototype.push]: append at the end. *)
Definition push {A} (arr : list A) (x : A) : list A := arr ++ [x].

(** [arr.slice(0, n)] *)
Definition slice0 {A} (n : nat) (arr : list A) : list A := firstn n arr.

(** [list.forEach((x, index) => ...)] over a mutable state [S]. *)
Fixpoint forEach_from {A S} (i : nat) (l : list A)
         (cb : A -> nat -> S -> S) (s : S) : S :=
  match l with
  | [] => s
  | x :: l' => forEach_from (Datatypes.S i) l' cb (cb x i s)
  end.

Definition forEach {A S} (l : list A) (cb : A -> nat -> S -> S) (s : S) : S :=
  forEach_from 0 l cb s.

(** [encodeURIComponent] on a byte string: unreserved characters are kept,
    every other byte becomes [%XX]. *)
Definition unreserved (c : ascii) : bool :=
  let n := nat_of_ascii c in
  ((Nat.leb 65 n && Nat.leb n 90) || (Nat.leb 97 n && Nat.leb n 122)
   || (Nat.leb 48 n && Nat.leb n 57)
   || Nat.eqb n 45 || Nat.eqb n 95 || Nat.eqb n 46 || Nat.eqb n 33
   || Nat.eqb n 126 || Nat.eqb n 42 || Nat.eqb n 39 || Nat.eqb n 40
   || Nat.eqb n 41)%bool.

Definition hex_digit (n : nat) : ascii :=
  if Nat.ltb n 10 then ascii_of_nat (48 + n) else ascii_of_nat (55 + n).

Fixpoint encodeURIComponent (s : string) : string :=
  match s with
  | EmptyString => EmptyString
  | String c r =>
      if unreserved c then String c (encodeURIComponent r)
      else
        let n := nat_of_ascii c in
        String "%" (String (hex_digit (n / 16))
                      (String (hex_digit (n mod 16)) (encodeURIComponent r)))
  end.

End Js.

(* ================================================================== *)
(** ** The rendered DOM *)

Module Dom.

(** What the callbacks read of an element.  [href] and [src] are the
    reflected properties (the URL as the browser resolved it); [attrs]
    holds the raw attributes that attribute selectors test. *)
Record props := {
  tagName : string;
  id : string;
  classList : list string;
  attrs : list (string * string);
  href : string;
  src : string;
  alt : string;
  value : string;
  naturalWidth : N;
  naturalHeight : N
}.

Inductive node :=
| Text (data : string)
| Element (p : props) (childNodes : list node).

(** A document is its root element. *)
Definition document := node.

(** An element handle: the element together with where it sits.
    [path] is the list of child indexes from the root; [ancestors] lists
    the enclosing elements, nearest first. *)
Record element := {
  path : list nat;
  ancestors : list props;
  self : props;
  kids : list node
}.

(** Pre-order walk of a subtree: the element itself, then its
    descendants, in document order. *)
Fixpoint subtree (pth : list nat) (anc : list props) (n : node)
  : list element :=
  match n with
  | Text _ => []
  | Element p ks =>
      {| path := pth; ancestors := anc; self := p; kids := ks |}
      :: (fix walk (i : nat) (l : list node) {struct l} : list element :=
            match l with
            | [] => []
            | k :: l' =>
                subtree (pth ++ [i]) (p :: anc) k ++ walk (S i) l'
            end) 0 ks
  end.

Fixpoint walk (pth : list nat) (anc : list props) (i : nat) (l : list node)
  : list element :=
  match l with
  | [] => []
  | k :: l' => subtree (pth ++ [i]) anc k ++ walk pth anc (S i) l'
  end.

(** Proper descendants of an element, in document order. *)
Definition descendants (e : element) : list element :=
  walk (path e) (self e :: ancestors e) 0 (kids e).

(** [node.textContent] *)
Fixpoint text_of (n : node) : string :=
  match n with
  | Text s => s
  | Element _ ks =>
      (fix cat (l : list node) : string :=
         match l with
         | [] => EmptyString
         | k :: l' => (text_of k ++ cat l')%string
         end) ks
  end.

Definition textContent (e : element) : string :=
  text_of (Element (self e) (kids e)).

(** *** Selectors *)

Inductive attr_test :=
| AttrEquals (name val : string)      (* [name="val"] *)
| AttrContains (name val : string).   (* [name*='val'] *)

Record compound := {
  sel_tag : option string;
  sel_id : option string;
  sel_classes : list string;
  sel_attrs : list attr_test
}.

(** A complex selector is a chain of compounds joined by the descendant
    combinator (the only one the source uses), subject last; a selector
    list is a comma-separated list of those. *)
Definition complex := list compound.
Definition selector := list complex.

Definition tag (t : string) : compound :=
  {| sel_tag := Some t; sel_id := None; sel_classes := []; sel_attrs := [] |}.
Definition cls (c : string) : compound :=
  {| sel_tag := None; sel_id := None; sel_classes := [c]; sel_attrs := [] |}.
Definition ident (i : string) : compound :=
  {| sel_tag := None; sel_id := Some i; sel_classes := []; sel_attrs := [] |}.
Definition tag_attr (t : string) (a : attr_test) : compound :=
  {| sel_tag := Some t; sel_id := None; sel_classes := []; sel_attrs := [a] |}.

Fixpoint getAttribute (name : string) (l : list (string * string))
  : option string :=
  match l with
  | [] => None
  | (k, v) :: l' => if String.eqb k name then Some v else getAttribute name l'
  end.

Definition test_attr (p : props) (t : attr_test) : bool :=
  match t with
  | AttrEquals name val =>
      match getAttribute name (attrs p) with
      | Some v => String.eqb v val
      | None => false
      end
  | AttrContains name val =>
      match getAttribute name (attrs p) with
      | Some v => (negb (Js.is_empty val) && Js.includes val v)%bool
      | None => false
      end
  end.

Definition match_compound (c : compound) (p : props) : bool :=
  ((match sel_tag c with Some t => String.eqb t (tagName p) | None => true end)
   && (match sel_id c with Some i => String.eqb i (id p) | None => true end)
   && forallb (fun k => existsb (String.eqb k) (classList p)) (sel_classes c)
   && forallb (test_attr p) (sel_attrs c))%bool.

(** [match_up cs anc]: the compounds [cs] (innermost first) are matched by
    some increasing choice of ancestors from [anc] (nearest first). *)
Fixpoint match_up (cs : list compound) (anc : list props) : bool :=
  match cs with
  | [] => true
  | c :: cs' =>
      (fix find (l : list props) : bool :=
         match l with
         | [] => false
         | a :: l' => ((match_compound c a && match_up cs' l') || find l')%bool
         end) anc
  end.

Definition match_complex (cx : complex) (p : props) (anc : list props)
  : bool :=
  match rev cx with
  | [] => false
  | subject :: outer => (match_compound subject p && match_up outer anc)%bool
  end.

Definition matches_at (s : selector) (p : props) (anc : list props) : bool :=
  existsb (fun cx => match_complex cx p anc) s.

Definition matches (s : selector) (e : element) : bool :=
  matches_at s (self e) (ancestors e).

(** *** Queries *)

(** [document.querySelectorAll(s)] *)
Definition querySelectorAll (d : document) (s : selector) : list element :=
  filter (matches s) (subtree [] [] d).

(** [document.querySelector(s)] *)
Definition querySelector (d : document) (s : selector) : option element :=
  hd_error (querySelectorAll d s).

(** [element.querySelectorAll(s)]: only proper descendants are candidates,
    but the selector is matched against the whole ancestor chain. *)
Definition querySelectorAll_in (e : element) (s : selector) : list element :=
  filter (matches s) (descendants e).

(** [element.querySelector(s)] *)
Definition querySelector_in (e : element) (s : selector) : option element :=
  hd_error (querySelectorAll_in e s).

(** [element.closest(s)]: the nearest inclusive ancestor that matches. *)
Fixpoint closest_in (s : selector) (chain : list props) : option props :=
  match chain with
  | [] => None
  | p :: up => if matches_at s p up then Some p else closest_in s up
  end.

Definition closest (e : element) (s : selector) : option props :=
  closest_in s (self e :: ancestors e).

(** [x?.textContent.trim()] *)
Definition text_trim (o : option element) : Js.ostring :=
  option_map (fun e => Js.trim (textContent e)) o.

(** [x?.href], [x?.src] *)
Definition href_of (o : option element) : Js.ostring :=
  option_map (fun e => href (self e)) o.
Definition src_of (o : option element) : Js.ostring :=
  option_map (fun e => src (self e)) o.

(** Document order on paths: a node precedes its descendants, and an
    earlier sibling's subtree precedes a later sibling's. *)
Fixpoint before (a b : list nat) : Prop :=
  match a, b with
  | [], [] => False
  | [], _ :: _ => True
  | _ :: _, [] => False
  | x :: a', y :: b' => x < y \/ (x = y /\ before a' b')
  end.

End Dom.

(* ================================================================== *)
(** ** Output records

    One module per object literal of the source, fields named as there. *)

Module Organic.
Record t := { title : string; url : string; displayUrl : string;
              snippet : string; favicon : option string }.
End Organic.

Module Featured.
Record t := { title : string; text : string; url : string }.
End Featured.

Module Fact.
Record t := { label : string; value : string }.
End Fact.

Module Panel.
Record t := { title : string; subtitle : string; description : string;
              image : option string; facts : list Fact.t }.
End Panel.

Module Question.
Record t := { question : string }.
End Question.

Module Related.
Record t := { text : string; url : string }.
End Related.

Module InlineImage.
Record t := { src : string; alt : string;
              width : option N; height : option N }.
End InlineImage.

Module InlineVideo.
Record t := { title : string; url : string; thumbnail : option string;
              duration : option string; source : string }.
End InlineVideo.

Module InlineNews.
Record t := { title : string; url : string; source : string;
              time : string; snippet : string }.
End InlineNews.

Module SiteLink.
Record t := { title : string; url : string; snippet : string }.
End SiteLink.

Module Image.
Record t := { src : string; thumbnail : string; alt : string;
              width : N; height : N; link : string }.
End Image.

Module Video.
Record t := { title : string; url : string; thumbnail : option string;
              source : string; duration : option string;
              uploadDate : string; description : string }.
End Video.

Module Article.
Record t := { title : string; url : string; source : string;
              publishedTime : string; snippet : string;
              thumbnail : option string }.
End Article.

(** The [results] object of the web callback.  [searchInfo] is [{}] or
    [{text}]. *)
Module Web.
Record results := {
  query : string;
  searchInfo : option string;
  organicResults : list Organic.t;
  featuredSnippet : option Featured.t;
  knowledgePanel : option Panel.t;
  peopleAlsoAsk : list Question.t;
  relatedSearches : list Related.t;
  images : list InlineImage.t;
  videos : list InlineVideo.t;
  news : list InlineNews.t;
  siteLinks : list SiteLink.t
}.

(** Assignments to one field of the object. *)
Definition set_searchInfo v (r : results) : results :=
  {| query := query r; searchInfo := v; organicResults := organicResults r;
     featuredSnippet := featuredSnippet r; knowledgePanel := knowledgePanel r;
     peopleAlsoAsk := peopleAlsoAsk r; relatedSearches := relatedSearches r;
     images := images r; videos := videos r; news := news r;
     siteLinks := siteLinks r |}.
Definition set_organicResults v (r : results) : results :=
  {| query := query r; searchInfo := searchInfo r; organicResults := v;
     featuredSnippet := featuredSnippet r; knowledgePanel := knowledgePanel r;
     peopleAlsoAsk := peopleAlsoAsk r; relatedSearches := relatedSearches r;
     images := images r; videos := videos r; news := news r;
     siteLinks := siteLinks r |}.
Definition set_featuredSnippet v (r : results) : results :=
  {| query := query r; searchInfo := searchInfo r;
     organicResults := organicResults r;
     featuredSnippet := v; knowledgePanel := knowledgePanel r;
     peopleAlsoAsk := peopleAlsoAsk r; relatedSearches := relatedSearches r;
     images := images r; videos := videos r; news := news r;
     siteLinks := siteLinks r |}.
Definition set_knowledgePanel v (r : results) : results :=
  {| query := query r; searchInfo := searchInfo r;
     organicResults := organicResults r;
     featuredSnippet := featuredSnippet r; knowledgePanel := v;
     peopleAlsoAsk := peopleAlsoAsk r; relatedSearches := relatedSearches r;
     images := images r; videos := videos r; news := news r;
     siteLinks := siteLinks r |}.
Definition set_peopleAlsoAsk v (r : results) : results :=
  {| query := query r; searchInfo := searchInfo r;
     organicResults := organicResults r;
     featuredSnippet := featuredSnippet r; knowledgePanel := knowledgePanel r;
     peopleAlsoAsk := v; relatedSearches := relatedSearches r;
     images := images r; videos := videos r; news := news r;
     siteLinks := siteLinks r |}.
Definition set_relatedSearches v (r : results) : results :=
  {| query := query r; searchInfo := searchInfo r;
     organicResults := organicResults r;
     featuredSnippet := featuredSnippet r; knowledgePanel := knowledgePanel r;
     peopleAlsoAsk := peopleAlsoAsk r; relatedSearches := v;
     images := images r; videos := videos r; news := news r;
     siteLinks := siteLinks r |}.
Definition set_images v (r : results) : results :=
  {| query := query r; searchInfo := searchInfo r;
     organicResults := organicResults r;
     featuredSnippet := featuredSnippet r; knowledgePanel := knowledgePanel r;
     peopleAlsoAsk := peopleAlsoAsk r; relatedSearches := relatedSearches r;
     images := v; videos := videos r; news := news r;
     siteLinks := siteLinks r |}.
Definition set_videos v (r : results) : results :=
  {| query := query r; searchInfo := searchInfo r;
     organicResults := organicResults r;
     featuredSnippet := featuredSnippet r; knowledgePanel := knowledgePanel r;
     peopleAlsoAsk := peopleAlsoAsk r; relatedSearches := relatedSearches r;
     images := images r; videos := v; news := news r;
     siteLinks := siteLinks r |}.
Definition set_news v (r : results) : results :=
  {| query := query r; searchInfo := searchInfo r;
     organicResults := organicResults r;
     featuredSnippet := featuredSnippet r; knowledgePanel := knowledgePanel r;
     peopleAlsoAsk := peopleAlsoAsk r; relatedSearches := relatedSearches r;
     images := images r; videos := videos r; news := v;
     siteLinks := siteLinks r |}.
Definition set_siteLinks v (r : results) : results :=
  {| query := query r; searchInfo := searchInfo r;
     organicResults := organicResults r;
     featuredSnippet := featuredSnippet r; knowledgePanel := knowledgePanel r;
     peopleAlsoAsk := peopleAlsoAsk r; relatedSearches := relatedSearches r;
     images := images r; videos := videos r; news := news r;
     siteLinks := v |}.

(** [results.knowledgePanel.facts.push(f)] *)
Definition push_fact (f : Fact.t) (r : results) : results :=
  match knowledgePanel r with
  | Some kp =>
      set_knowledgePanel
        (Some {| Panel.title := Panel.title kp;
                 Panel.subtitle := Panel.subtitle kp;
                 Panel.description := Panel.description kp;
                 Panel.image := Panel.image kp;
                 Panel.facts := Js.push (Panel.facts kp) f |}) r
  | None => r
  end.
End Web.

Module ImagesData.
Record t := { query : string; totalImages : nat; images : list Image.t }.
End ImagesData.

Module VideosData.
Record t := { query : string; totalVideos : nat; videos : list Video.t }.
End VideosData.

Module NewsData.
Record t := { query : string; totalArticles : nat;
              articles : list Article.t }.
End NewsData.

(* ================================================================== *)
(** ** Selectors of the source

    Each constant is the selector string quoted beside it. *)

Module Sel.
Import Dom.

Definition input_q : selector :=                 (* input[name="q"] *)
  [[tag_attr "input" (AttrEquals "name" "q")]].
Definition result_stats : selector :=            (* #result-stats *)
  [[ident "result-stats"]].
Definition organic : selector :=                 (* .g, .Gx5Zad *)
  [[cls "g"]; [cls "Gx5Zad"]].
Definition h3 : selector := [[tag "h3"]].        (* h3 *)
Definition a : selector := [[tag "a"]].          (* a *)
Definition img : selector := [[tag "img"]].      (* img *)
Definition cite : selector := [[tag "cite"]].    (* cite *)
Definition snippet : selector :=                 (* .VwiC3b, .yXK7lf, .s *)
  [[cls "VwiC3b"]; [cls "yXK7lf"]; [cls "s"]].
Definition favicon : selector :=                 (* img[src*='favicon'] *)
  [[tag_attr "img" (AttrContains "src" "favicon")]].
Definition featured : selector :=                (* .xpdopen, .kp-blk, .IZ6rdc *)
  [[cls "xpdopen"]; [cls "kp-blk"]; [cls "IZ6rdc"]].
Definition featured_title : selector :=          (* h3, .LC20lb *)
  [[tag "h3"]; [cls "LC20lb"]].
Definition featured_text : selector :=           (* .hgKElc, .X5LH0c *)
  [[cls "hgKElc"]; [cls "X5LH0c"]].
Definition panel : selector :=                   (* .kp-wholepage, .knowledge-panel *)
  [[cls "kp-wholepage"]; [cls "knowledge-panel"]].
Definition panel_title : selector :=             (* .qrShPb, h2 *)
  [[cls "qrShPb"]; [tag "h2"]].
Definition panel_subtitle : selector :=          (* .wwUB2c *)
  [[cls "wwUB2c"]].
Definition panel_description : selector :=       (* .kno-rdesc span *)
  [[cls "kno-rdesc"; tag "span"]].
Definition panel_image : selector :=             (* g-img img, .kno-ibrg img *)
  [[tag "g-img"; tag "img"]; [cls "kno-ibrg"; tag "img"]].
Definition panel_facts : selector :=             (* .rVusze, .wDYxhc *)
  [[cls "rVusze"]; [cls "wDYxhc"]].
Definition fact_label : selector := [[cls "w8qArf"]].   (* .w8qArf *)
Definition fact_value : selector := [[cls "kno-fv"]].   (* .kno-fv *)
Definition paa : selector :=                     (* .related-question-pair, .JolIg *)
  [[cls "related-question-pair"]; [cls "JolIg"]].
Definition paa_question : selector :=            (* .CSkcDe, span *)
  [[cls "CSkcDe"]; [tag "span"]].
Definition related : selector :=                 (* .k8XOCe, .s75CSd *)
  [[cls "k8XOCe"]; [cls "s75CSd"]].
Definition inline_images : selector :=           (* g-img img, .ivg-i img *)
  [[tag "g-img"; tag "img"]; [cls "ivg-i"; tag "img"]].
Definition inline_videos : selector :=           (* .RzdJxc, .VibNM *)
  [[cls "RzdJxc"]; [cls "VibNM"]].
Definition duration : selector := [[cls "J1mWY"]].      (* .J1mWY *)
Definition inline_video_source : selector := [[cls "Zg1NU"]]. (* .Zg1NU *)
Definition inline_news : selector :=             (* .SoaBEf, .WlydOe *)
  [[cls "SoaBEf"]; [cls "WlydOe"]].
Definition inline_news_title : selector :=       (* .mCBkyc, .n0jPhd *)
  [[cls "mCBkyc"]; [cls "n0jPhd"]].
Definition inline_news_source : selector :=      (* .NUnG9d span, .CEMjEf *)
  [[cls "NUnG9d"; tag "span"]; [cls "CEMjEf"]].
Definition inline_news_time : selector :=        (* .OSrXXb, .WG9SHc span *)
  [[cls "OSrXXb"]; [cls "WG9SHc"; tag "span"]].
Definition inline_news_snippet : selector :=     (* .GI74Re, .Y3v8qd *)
  [[cls "GI74Re"]; [cls "Y3v8qd"]].
Definition site_links : selector := [[cls "usJj9c"]].   (* .usJj9c *)
Definition s : selector := [[cls "s"]].                 (* .s *)
Definition g : selector := [[cls "g"]].                 (* .g *)
Definition video_source : selector := [[cls "UPmit"]].  (* .UPmit *)
Definition upload_date : selector := [[cls "P7xzyf"]].  (* .P7xzyf *)
Definition description : selector := [[cls "VwiC3b"]].  (* .VwiC3b *)
Definition articles : selector :=                (* .SoaBEf, .WlydOe, .Gx5Zad *)
  [[cls "SoaBEf"]; [cls "WlydOe"]; [cls "Gx5Zad"]].
Definition article_title : selector :=           (* .mCBkyc, .n0jPhd, h3 *)
  [[cls "mCBkyc"]; [cls "n0jPhd"]; [tag "h3"]].
Definition article_source : selector :=          (* .NUnG9d span, .CEMjEf, cite *)
  [[cls "NUnG9d"; tag "span"]; [cls "CEMjEf"]; [tag "cite"]].
Definition article_time : selector :=            (* .OSrXXb, .WG9SHc span, .f *)
  [[cls "OSrXXb"]; [cls "WG9SHc"; tag "span"]; [cls "f"]].
Definition article_snippet : selector :=         (* .GI74Re, .Y3v8qd, .st *)
  [[cls "GI74Re"]; [cls "Y3v8qd"]; [cls "st"]].
End Sel.

(* ================================================================== *)
(** ** The four [page.evaluate] callbacks *)

Module Extract.
Import Dom.

(** [document.querySelector('input[name="q"]')?.value || ""] *)
Definition query_box (document : document) : string :=
  Js.or_str (option_map (fun e => value (self e))
                        (querySelector document Sel.input_q)) "".

(** The payload of a string the guard [if (a && b)] has found truthy. *)
Definition str (v : Js.ostring) : string :=
  match v with Some s => s | None => "" end.

(** *** Web search: the blocks of the callback, in source order *)

Definition search_init (document : document) : Web.results :=
  {| Web.query := query_box document;
     Web.searchInfo := None;
     Web.organicResults := [];
     Web.featuredSnippet := None;
     Web.knowledgePanel := None;
     Web.peopleAlsoAsk := [];
     Web.relatedSearches := [];
     Web.images := [];
     Web.videos := [];
     Web.news := [];
     Web.siteLinks := [] |}.

Definition search_stats (document : document) (results : Web.results)
  : Web.results :=
  match querySelector document Sel.result_stats with
  | Some searchStats =>
      Web.set_searchInfo (Some (Js.trim (textContent searchStats))) results
  | None => results
  end.

Definition organic_cb (element : element) (_ : nat) (results : Web.results)
  : Web.results :=
  let titleElement := querySelector_in element Sel.h3 in
  let linkElement := querySelector_in element Sel.a in
  let snippetElement := querySelector_in element Sel.snippet in
  let faviconElement := querySelector_in element Sel.favicon in
  match titleElement, linkElement with
  | Some titleElement, Some linkElement =>
      Web.set_organicResults
        (Js.push (Web.organicResults results)
           {| Organic.title := Js.trim (textContent titleElement);
              Organic.url := href (self linkElement);
              Organic.displayUrl :=
                Js.or_str (text_trim (querySelector_in element Sel.cite)) "";
              Organic.snippet := Js.or_str (text_trim snippetElement) "";
              Organic.favicon := Js.or_null (src_of faviconElement) |})
        results
  | _, _ => results
  end.

Definition featured_block (document : document) (results : Web.results)
  : Web.results :=
  match querySelector document Sel.featured with
  | Some featuredSnippetElement =>
      let snippetTitle :=
        querySelector_in featuredSnippetElement Sel.featured_title in
      let snippetText :=
        querySelector_in featuredSnippetElement Sel.featured_text in
      let snippetLink := querySelector_in featuredSnippetElement Sel.a in
      Web.set_featuredSnippet
        (Some {| Featured.title := Js.or_str (text_trim snippetTitle) "";
                 Featured.text := Js.or_str (text_trim snippetText) "";
                 Featured.url := Js.or_str (href_of snippetLink) "" |})
        results
  | None => results
  end.

Definition fact_cb (fact : element) (_ : nat) (results : Web.results)
  : Web.results :=
  let label := text_trim (querySelector_in fact Sel.fact_label) in
  let value := text_trim (querySelector_in fact Sel.fact_value) in
  if (Js.truthy label && Js.truthy value)%bool
  then Web.push_fact {| Fact.label := str label; Fact.value := str value |}
                     results
  else results.

Definition panel_block (document : document) (results : Web.results)
  : Web.results :=
  match querySelector document Sel.panel with
  | Some knowledgePanelElement =>
      let title :=
        text_trim (querySelector_in knowledgePanelElement Sel.panel_title) in
      let subtitle :=
        text_trim (querySelector_in knowledgePanelElement Sel.panel_subtitle) in
      let description :=
        text_trim
          (querySelector_in knowledgePanelElement Sel.panel_description) in
      let image :=
        src_of (querySelector_in knowledgePanelElement Sel.panel_image) in
      let results :=
        Web.set_knowledgePanel
          (Some {| Panel.title := Js.or_str title "";
                   Panel.subtitle := Js.or_str subtitle "";
                   Panel.description := Js.or_str description "";
                   Panel.image := Js.or_null image;
                   Panel.facts := [] |})
          results in
      let factElements :=
        querySelectorAll_in knowledgePanelElement Sel.panel_facts in
      Js.forEach factElements fact_cb results
  | None => results
  end.

Definition paa_cb (element : element) (_ : nat) (results : Web.results)
  : Web.results :=
  let question := text_trim (querySelector_in element Sel.paa_question) in
  if Js.truthy question
  then Web.set_peopleAlsoAsk
         (Js.push (Web.peopleAlsoAsk results)
                  {| Question.question := str question |})
         results
  else results.

Definition related_cb (element : element) (_ : nat) (results : Web.results)
  : Web.results :=
  let text := Some (Js.trim (textContent element)) in
  let link := option_map href (closest element Sel.a) in
  if (Js.truthy text && Js.truthy link)%bool
  then Web.set_relatedSearches
         (Js.push (Web.relatedSearches results)
                  {| Related.text := str text; Related.url := str link |})
         results
  else results.

(** The object pushed for an inline image. *)
Definition inline_image_literal (img : element) : InlineImage.t :=
  {| InlineImage.src := src (self img);
     InlineImage.alt := Js.or_str (Some (alt (self img))) "";
     InlineImage.width := Js.num_or_null (naturalWidth (self img));
     InlineImage.height := Js.num_or_null (naturalHeight (self img)) |}.

Definition inline_image_cb (img : element) (index : nat)
           (results : Web.results) : Web.results :=
  if Nat.ltb index 20
  then Web.set_images
         (Js.push (Web.images results) (inline_image_literal img)) results
  else results.

Definition inline_video_cb (element : element) (_ : nat)
           (results : Web.results) : Web.results :=
  let title := text_trim (querySelector_in element Sel.h3) in
  let link := href_of (querySelector_in element Sel.a) in
  let thumbnail := src_of (querySelector_in element Sel.img) in
  let duration := text_trim (querySelector_in element Sel.duration) in
  let source :=
    text_trim (querySelector_in element Sel.inline_video_source) in
  if (Js.truthy title && Js.truthy link)%bool
  then Web.set_videos
         (Js.push (Web.videos results)
            {| InlineVideo.title := str title;
               InlineVideo.url := str link;
               InlineVideo.thumbnail := Js.or_null thumbnail;
               InlineVideo.duration := Js.or_null duration;
               InlineVideo.source := Js.or_str source "" |})
         results
  else results.

Definition inline_news_cb (element : element) (_ : nat)
           (results : Web.results) : Web.results :=
  let title := text_trim (querySelector_in element Sel.inline_news_title) in
  let link := href_of (querySelector_in element Sel.a) in
  let source := text_trim (querySelector_in element Sel.inline_news_source) in
  let time := text_trim (querySelector_in element Sel.inline_news_time) in
  let snippet :=
    text_trim (querySelector_in element Sel.inline_news_snippet) in
  if (Js.truthy title && Js.truthy link)%bool
  then Web.set_news
         (Js.push (Web.news results)
            {| InlineNews.title := str title;
               InlineNews.url := str link;
               InlineNews.source := Js.or_str source "";
               InlineNews.time := Js.or_str time "";
               InlineNews.snippet := Js.or_str snippet "" |})
         results
  else results.

Definition site_link_cb (element : element) (_ : nat)
           (results : Web.results) : Web.results :=
  let title := text_trim (querySelector_in element Sel.h3) in
  let link := href_of (querySelector_in element Sel.a) in
  let snippet := text_trim (querySelector_in element Sel.s) in
  if (Js.truthy title && Js.truthy link)%bool
  then Web.set_siteLinks
         (Js.push (Web.siteLinks results)
            {| SiteLink.title := str title;
               SiteLink.url := str link;
               SiteLink.snippet := Js.or_str snippet "" |})
         results
  else results.

(** The callback of [scrapeGoogleSearch]. *)
Definition search (document : document) : Web.results :=
  let results := search_init document in
  let results := search_stats document results in
  let results :=
    Js.forEach (querySelectorAll document Sel.organic) organic_cb results in
  let results := featured_block document results in
  let results := panel_block document results in
  let results :=
    Js.forEach (querySelectorAll document Sel.paa) paa_cb results in
  let results :=
    Js.forEach (querySelectorAll document Sel.related) related_cb results in
  let results :=
    Js.forEach (querySelectorAll document Sel.inline_images)
               inline_image_cb results in
  let results :=
    Js.forEach (querySelectorAll document Sel.inline_videos)
               inline_video_cb results in
  let results :=
    Js.forEach (querySelectorAll document Sel.inline_news)
               inline_news_cb results in
  let results :=
    Js.forEach (querySelectorAll document Sel.site_links)
               site_link_cb results in
  results.

(** *** Image search *)

(** The object pushed for an image of the image search. *)
Definition image_literal (img : element) : Image.t :=
  let container := closest img Sel.a in
  {| Image.src := src (self img);
     Image.thumbnail := src (self img);
     Image.alt := Js.or_str (Some (alt (self img))) "";
     Image.width := naturalWidth (self img);
     Image.height := naturalHeight (self img);
     Image.link := Js.or_str (option_map href container) "" |}.

Definition image_cb (img : element) (_ : nat) (images : list Image.t)
  : list Image.t :=
  if (N.ltb 100 (naturalWidth (self img))
      && N.ltb 100 (naturalHeight (self img)))%bool
  then Js.push images (image_literal img)
  else images.

(** The extraction callback of [scrapeGoogleImages]. *)
Definition images (document : document) : ImagesData.t :=
  let images := [] in
  let imageElements := querySelectorAll document Sel.img in
  let images := Js.forEach imageElements image_cb images in
  {| ImagesData.query := query_box document;
     ImagesData.totalImages := List.length images;
     ImagesData.images := Js.slice0 50 images |}.

(** *** Video search *)

Definition video_cb (element : element) (_ : nat) (videos : list Video.t)
  : list Video.t :=
  let title := text_trim (querySelector_in element Sel.h3) in
  let link := href_of (querySelector_in element Sel.a) in
  let thumbnail := src_of (querySelector_in element Sel.img) in
  let source := text_trim (querySelector_in element Sel.video_source) in
  let duration := text_trim (querySelector_in element Sel.duration) in
  let uploadDate := text_trim (querySelector_in element Sel.upload_date) in
  let description := text_trim (querySelector_in element Sel.description) in
  if (Js.truthy title && Js.truthy link)%bool
  then Js.push videos
         {| Video.title := str title;
            Video.url := str link;
            Video.thumbnail := Js.or_null thumbnail;
            Video.source := Js.or_str source "";
            Video.duration := Js.or_null duration;
            Video.uploadDate := Js.or_str uploadDate "";
            Video.description := Js.or_str description "" |}
  else videos.

(** The callback of [scrapeGoogleVideos]. *)
Definition videos (document : document) : VideosData.t :=
  let videos := [] in
  let videoElements := querySelectorAll document Sel.g in
  let videos := Js.forEach videoElements video_cb videos in
  {| VideosData.query := query_box document;
     VideosData.totalVideos := List.length videos;
     VideosData.videos := videos |}.

(** *** News search *)

Definition article_cb (element : element) (_ : nat)
           (articles : list Article.t) : list Article.t :=
  let title := text_trim (querySelector_in element Sel.article_title) in
  let link := href_of (querySelector_in element Sel.a) in
  let source := text_trim (querySelector_in element Sel.article_source) in
  let time := text_trim (querySelector_in element Sel.article_time) in
  let snippet := text_trim (querySelector_in element Sel.article_snippet) in
  let thumbnail := src_of (querySelector_in element Sel.img) in
  if (Js.truthy title && Js.truthy link)%bool
  then Js.push articles
         {| Article.title := str title;
            Article.url := str link;
            Article.source := Js.or_str source "";
            Article.publishedTime := Js.or_str time "";
            Article.snippet := Js.or_str snippet "";
            Article.thumbnail := Js.or_null thumbnail |}
  else articles.

(** The callback of [scrapeGoogleNews]. *)
Definition news (document : document) : NewsData.t :=
  let articles := [] in
  let articleElements := querySelectorAll document Sel.articles in
  let articles := Js.forEach articleElements article_cb articles in
  {| NewsData.query := query_box document;
     NewsData.totalArticles := List.length articles;
     NewsData.articles := articles |}.

End Extract.

(* ================================================================== *)
(** ** The browser: awaited calls, rejections and the call log *)

Module Browser.

(** A thrown [Error]. *)
Record error := { message : string }.

(** The awaited calls the routines make on the puppeteer objects. *)
Inductive call :=
| launch                                   (* puppeteer.launch(env.MYBROWSER) *)
| newPage                                  (* browser.newPage() *)
| setUserAgent (ua : string)               (* page.setUserAgent(ua) *)
| goto (url waitUntil : string) (timeout : Z)      (* page.goto(url, {...}) *)
| waitForSelector (selector : string) (timeout : Z)
| evaluate_scroll (cycles : nat) (delay : Z)
    (* page.evaluate of the loop: [cycles] times scrollBy then a
       [delay] ms timer *)
| evaluate_extract                         (* page.evaluate(extraction) *)
| close.                                   (* browser.close() *)

Definition call_eqb (a b : call) : bool :=
  match a, b with
  | launch, launch | newPage, newPage
  | evaluate_extract, evaluate_extract | close, close => true
  | setUserAgent u, setUserAgent v => String.eqb u v
  | goto u w t, goto u' w' t' =>
      (String.eqb u u' && String.eqb w w' && Z.eqb t t')%bool
  | waitForSelector s t, waitForSelector s' t' =>
      (String.eqb s s' && Z.eqb t t')%bool
  | evaluate_scroll c d, evaluate_scroll c' d' =>
      (Nat.eqb c c' && Z.eqb d d')%bool
  | _, _ => false
  end.

(** What surrounds one run of the worker: the remote browser behind
    [env.MYBROWSER], which may reject any call (given the calls made so
    far), the document it has rendered when the extraction callback runs,
    and the clock read by [new Date()]. *)
Record env := {
  rejects : list call -> call -> option error;
  document : Dom.document;
  now : string
}.

Inductive result (A : Type) :=
| Ok (a : A)
| Throw (e : error).
Arguments Ok {A} a.
Arguments Throw {A} e.

(** An async function: reads the surroundings, extends the call log, and
    resolves or rejects. *)
Definition M (A : Type) : Type := env -> list call -> result A * list call.

Definition ret {A} (a : A) : M A := fun _ log => (Ok a, log).

Definition throw {A} (e : error) : M A := fun _ log => (Throw e, log).

Definition bind {A B} (m : M A) (k : A -> M B) : M B :=
  fun w log =>
    match m w log with
    | (Ok a, log') => k a w log'
    | (Throw e, log') => (Throw e, log')
    end.

(** [try { body } catch (error) { handler }] *)
Definition try_catch {A} (body : M A) (handler : error -> M A) : M A :=
  fun w log =>
    match body w log with
    | (Ok a, log') => (Ok a, log')
    | (Throw e, log') => handler e w log'
    end.

(** [await obj.method(...)] *)
Definition await (c : call) : M unit :=
  fun w log =>
    match rejects w log c with
    | Some e => (Throw e, log ++ [c])
    | None => (Ok tt, log ++ [c])
    end.

(** [await page.evaluate(callback)] for a callback that reads the DOM. *)
Definition evaluate {A} (callback : Dom.document -> A) : M A :=
  fun w log =>
    match rejects w log evaluate_extract with
    | Some e => (Throw e, log ++ [evaluate_extract])
    | None => (Ok (callback (document w)), log ++ [evaluate_extract])
    end.

(** [new Date().toISOString()] *)
Definition toISOString : M string := fun w log => (Ok (now w), log).

Definition run {A} (m : M A) (w : env) : result A * list call := m w [].

End Browser.

Declare Scope js_scope.
Delimit Scope js_scope with js.
Notation "x <- c ;; k" := (Browser.bind c (fun x => k))
  (at level 61, c at next level, right associativity) : js_scope.
Notation "c ;; k" := (Browser.bind c (fun _ => k))
  (at level 61, right associativity) : js_scope.

(* ================================================================== *)
(** ** The extraction routines *)

Record envelope (D : Type) := {
  success : bool;
  timestamp : string;
  data : D
}.

Definition userAgent : string :=
  "Mozilla/5.0 (Windows NT 10.0; Win64; x64) AppleWebKit/537.36 (KHTML, like Gecko) Chrome/120.0.0.0 Safari/537.36".

Section Routines.
Import Browser.
Local Open Scope js_scope.

Definition scrapeGoogleSearch (query : string) : M (envelope Web.results) :=
  await launch ;;
  await newPage ;;
  try_catch
    (await (setUserAgent userAgent) ;;
     let searchUrl :=
       ("https://www.google.com/search?q=" ++ Js.encodeURIComponent query
        ++ "&hl=en")%string in
     await (goto searchUrl "networkidle0" 30000) ;;
     await (waitForSelector "#search" 10000) ;;
     data <- evaluate Extract.search ;;
     await close ;;
     ts <- toISOString ;;
     ret {| success := true; timestamp := ts; data := data |})
    (fun error => await close ;; throw error).

Definition scrapeGoogleImages (query : string) : M (envelope ImagesData.t) :=
  await launch ;;
  await newPage ;;
  try_catch
    (await (setUserAgent userAgent) ;;
     let searchUrl :=
       ("https://www.google.com/search?q=" ++ Js.encodeURIComponent query
        ++ "&tbm=isch&hl=en")%string in
     await (goto searchUrl "networkidle0" 30000) ;;
     await (evaluate_scroll 3 1000) ;;
     data <- evaluate Extract.images ;;
     await close ;;
     ts <- toISOString ;;
     ret {| success := true; timestamp := ts; data := data |})
    (fun error => await close ;; throw error).

Definition scrapeGoogleVideos (query : string) : M (envelope VideosData.t) :=
  await launch ;;
  await newPage ;;
  try_catch
    (await (setUserAgent userAgent) ;;
     let searchUrl :=
       ("https://www.google.com/search?q=" ++ Js.encodeURIComponent query
        ++ "&tbm=vid&hl=en")%string in
     await (goto searchUrl "networkidle0" 30000) ;;
     await (waitForSelector ".g" 10000) ;;
     data <- evaluate Extract.videos ;;
     await close ;;
     ts <- toISOString ;;
     ret {| success := true; timestamp := ts; data := data |})
    (fun error => await close ;; throw error).

Definition scrapeGoogleNews (query : string) : M (envelope NewsData.t) :=
  await launch ;;
  await newPage ;;
  try_catch
    (await (setUserAgent userAgent) ;;
     let searchUrl :=
       ("https://www.google.com/search?q=" ++ Js.encodeURIComponent query
        ++ "&tbm=nws&hl=en")%string in
     await (goto searchUrl "networkidle0" 30000) ;;
     await (waitForSelector ".SoaBEf, .WlydOe" 10000) ;;
     data <- evaluate Extract.news ;;
     await close ;;
     ts <- toISOString ;;
     ret {| success := true; timestamp := ts; data := data |})
    (fun error => await close ;; throw error).

End Routines.

(* ================================================================== *)
(** ** JSON values and [JSON.stringify]

    A response body is kept as the JSON value that [JSON.stringify] writes
    out. *)

Module Json.

Inductive t :=
| Null
| Bool (b : bool)
| Num (n : Z)
| Str (s : string)
| Arr (l : list t)
| Obj (fields : list (string * t)).

Definition nullable (o : option string) : t :=
  match o with Some s => Str s | None => Null end.

Definition nullable_num (o : option N) : t :=
  match o with Some n => Num (Z.of_N n) | None => Null end.

Definition organic (x : Organic.t) : t :=
  Obj [("title", Str (Organic.title x)); ("url", Str (Organic.url x));
       ("displayUrl", Str (Organic.displayUrl x));
       ("snippet", Str (Organic.snippet x));
       ("favicon", nullable (Organic.favicon x))].

Definition featured (x : Featured.t) : t :=
  Obj [("title", Str (Featured.title x)); ("text", Str (Featured.text x));
       ("url", Str (Featured.url x))].

Definition fact (x : Fact.t) : t :=
  Obj [("label", Str (Fact.label x)); ("value", Str (Fact.value x))].

Definition panel (x : Panel.t) : t :=
  Obj [("title", Str (Panel.title x)); ("subtitle", Str (Panel.subtitle x));
       ("description", Str (Panel.description x));
       ("image", nullable (Panel.image x));
       ("facts", Arr (map fact (Panel.facts x)))].

Definition question (x : Question.t) : t :=
  Obj [("question", Str (Question.question x))].

Definition related (x : Related.t) : t :=
  Obj [("text", Str (Related.text x)); ("url", Str (Related.url x))].

Definition inline_image (x : InlineImage.t) : t :=
  Obj [("src", Str (InlineImage.src x)); ("alt", Str (InlineImage.alt x));
       ("width", nullable_num (InlineImage.width x));
       ("height", nullable_num (InlineImage.height x))].

Definition inline_video (x : InlineVideo.t) : t :=
  Obj [("title", Str (InlineVideo.title x)); ("url", Str (InlineVideo.url x));
       ("thumbnail", nullable (InlineVideo.thumbnail x));
       ("duration", nullable (InlineVideo.duration x));
       ("source", Str (InlineVideo.source x))].

Definition inline_news (x : InlineNews.t) : t :=
  Obj [("title", Str (InlineNews.title x)); ("url", Str (InlineNews.url x));
       ("source", Str (InlineNews.source x));
       ("time", Str (InlineNews.time x));
       ("snippet", Str (InlineNews.snippet x))].

Definition site_link (x : SiteLink.t) : t :=
  Obj [("title", Str (SiteLink.title x)); ("url", Str (SiteLink.url x));
       ("snippet", Str (SiteLink.snippet x))].

Definition web (r : Web.results) : t :=
  Obj [("query", Str (Web.query r));
       ("searchInfo",
         match Web.searchInfo r with
         | Some text => Obj [("text", Str text)]
         | None => Obj []
         end);
       ("organicResults", Arr (map organic (Web.organicResults r)));
       ("featuredSnippet",
         match Web.featuredSnippet r with
         | Some f => featured f
         | None => Null
         end);
       ("knowledgePanel",
         match Web.knowledgePanel r with
         | Some p => panel p
         | None => Null
         end);
       ("peopleAlsoAsk", Arr (map question (Web.peopleAlsoAsk r)));
       ("relatedSearches", Arr (map related (Web.relatedSearches r)));
       ("images", Arr (map inline_image (Web.images r)));
       ("videos", Arr (map inline_video (Web.videos r)));
       ("news", Arr (map inline_news (Web.news r)));
       ("siteLinks", Arr (map site_link (Web.siteLinks r)))].

Definition image (x : Image.t) : t :=
  Obj [("src", Str (Image.src x)); ("thumbnail", Str (Image.thumbnail x));
       ("alt", Str (Image.alt x));
       ("width", Num (Z.of_N (Image.width x)));
       ("height", Num (Z.of_N (Image.height x)));
       ("link", Str (Image.link x))].

Definition images (d : ImagesData.t) : t :=
  Obj [("query", Str (ImagesData.query d));
       ("totalImages", Num (Z.of_nat (ImagesData.totalImages d)));
       ("images", Arr (map image (ImagesData.images d)))].

Definition video (x : Video.t) : t :=
  Obj [("title", Str (Video.title x)); ("url", Str (Video.url x));
       ("thumbnail", nullable (Video.thumbnail x));
       ("source", Str (Video.source x));
       ("duration", nullable (Video.duration x));
       ("uploadDate", Str (Video.uploadDate x));
       ("description", Str (Video.description x))].

Definition videos (d : VideosData.t) : t :=
  Obj [("query", Str (VideosData.query d));
       ("totalVideos", Num (Z.of_nat (VideosData.totalVideos d)));
       ("videos", Arr (map video (VideosData.videos d)))].

Definition article (x : Article.t) : t :=
  Obj [("title", Str (Article.title x)); ("url", Str (Article.url x));
       ("source", Str (Article.source x));
       ("publishedTime", Str (Article.publishedTime x));
       ("snippet", Str (Article.snippet x));
       ("thumbnail", nullable (Article.thumbnail x))].

Definition news (d : NewsData.t) : t :=
  Obj [("query", Str (NewsData.query d));
       ("totalArticles", Num (Z.of_nat (NewsData.totalArticles d)));
       ("articles", Arr (map article (NewsData.articles d)))].

Definition envelope {D} (payload : D -> t) (e : envelope D) : t :=
  Obj [("success", Bool (success e)); ("timestamp", Str (timestamp e));
       ("data", payload (data e))].

(** [obj.key] of a parsed body. *)
Fixpoint field (k : string) (fields : list (string * t)) : option t :=
  match fields with
  | [] => None
  | (k', v) :: rest => if String.eqb k' k then Some v else field k rest
  end.

End Json.

(* ================================================================== *)
(** ** The request router *)

Record request := {
  method : string;
  pathname : string;                       (* of [new URL(request.url)] *)
  searchParams : list (string * string)    (* of [new URL(request.url)] *)
}.

Record response := {
  body : option Json.t;                    (* [null] or a JSON text *)
  status : Z;
  headers : list (string * string)
}.

(** [url.searchParams.get(name)]: the first value given for [name]. *)
Fixpoint searchParams_get (name : string) (l : list (string * string))
  : option string :=
  match l with
  | [] => None
  | (k, v) :: l' => if String.eqb k name then Some v else searchParams_get name l'
  end.

Definition corsHeaders : list (string * string) :=
  [("Access-Control-Allow-Origin", "*");
   ("Access-Control-Allow-Methods", "GET, POST, OPTIONS");
   ("Access-Control-Allow-Headers", "Content-Type")].

Definition jsonHeaders : list (string * string) :=
  corsHeaders ++ [("Content-Type", "application/json")].

Definition health : Json.t :=
  Json.Obj
    [("status", Json.Str "ok");
     ("service", Json.Str "Google Scraper API");
     ("version", Json.Str "1.0.0");
     ("endpoints",
       Json.Arr
         [Json.Str "/search?q=query - Search Google and extract all data";
          Json.Str "/images?q=query - Search Google Images";
          Json.Str "/videos?q=query - Search Google Videos";
          Json.Str "/news?q=query - Search Google News";
          Json.Str "/health - Health check"])].

Definition missing_q : Json.t :=
  Json.Obj [("error", Json.Str "Missing query parameter 'q'")].

Section Router.
Import Browser.
Local Open Scope js_scope.

(** The body of one endpoint's [if] block; the four blocks of the source
    differ only in the routine they call. *)
Definition endpoint {D} (scrape : string -> M (envelope D))
           (payload : D -> Json.t) (request : request) : M response :=
  let query := searchParams_get "q" (searchParams request) in
  if negb (Js.truthy query)
  then ret {| body := Some missing_q; status := 400;
              headers := jsonHeaders |}
  else
    try_catch
      (results <- scrape (Extract.str query) ;;
       ret {| body := Some (Json.envelope payload results); status := 200;
              headers := jsonHeaders |})
      (fun error =>
         ret {| body := Some (Json.Obj [("error", Json.Str (message error))]);
                status := 500; headers := jsonHeaders |}).

Definition fetch (request : request) : M response :=
  if String.eqb (method request) "OPTIONS"
  then ret {| body := None; status := 200; headers := corsHeaders |}
  else if (String.eqb (pathname request) "/"
           || String.eqb (pathname request) "/health")%bool
  then ret {| body := Some health; status := 200; headers := jsonHeaders |}
  else if String.eqb (pathname request) "/search"
  then endpoint scrapeGoogleSearch Json.web request
  else if String.eqb (pathname request) "/images"
  then endpoint scrapeGoogleImages Json.images request
  else if String.eqb (pathname request) "/videos"
  then endpoint scrapeGoogleVideos Json.videos request
  else if String.eqb (pathname request) "/news"
  then endpoint scrapeGoogleNews Json.news request
  else ret {| body := Some (Json.Obj [("error", Json.Str "Endpoint not found")]);
              status := 404; headers := jsonHeaders |}.

End Router.

(* ================================================================== *)
(** * Vocabulary of the properties *)

(** ** Collections, document order and sample pages *)

Section PageVocabulary.
Import Dom.

(** What a callback emits over a list, node by node, in list order. *)
Fixpoint emitted (A B : Type) (f : A -> nat -> list B) (i : nat)
         (l : list A) : list B :=
  match l with
  | [] => []
  | x :: l' => f x i ++ emitted f (Datatypes.S i) l'
  end.

(** [a] comes before [b] in the document. *)
Definition precedes (a b : element) : Prop := before (path a) (path b).

(** A list of elements is in document order when each one comes strictly
    before all the later ones. *)
Definition in_document_order (l : list element) : Prop :=
  StronglySorted precedes l.

(** Induction on a node with the hypothesis for every child. *)
Unset Implicit Arguments.
Fixpoint node_rect' (P : node -> Prop)
         (HT : forall s, P (Text s))
         (HE : forall p ks, Forall P ks -> P (Element p ks))
         (n : node) {struct n} : P n :=
  match n with
  | Text s => HT s
  | Element p ks =>
      HE p ks
         ((fix all (l : list node) : Forall P l :=
             match l with
             | [] => Forall_nil P
             | k :: l' => Forall_cons k (node_rect' P HT HE k) (all l')
             end) ks)
  end.
Set Implicit Arguments.

(** Every element of a subtree sits at or below the subtree's root, and the
    subtree lists its elements in document order. *)
Definition subtree_ok (n : node) : Prop :=
  forall pth anc,
    in_document_order (subtree pth anc n)
    /\ Forall (fun e => exists r, path e = pth ++ r) (subtree pth anc n).

(** Both rendered dimensions strictly exceed 100. *)
Definition exceeds_100 (img : element) : bool :=
  (N.ltb 100 (naturalWidth (self img))
   && N.ltb 100 (naturalHeight (self img)))%bool.

(** A page of [n] images of 200 by 200 pixels. *)
Definition big_image : node :=
  Element {| tagName := "img"; id := ""; classList := []; attrs := [];
             href := ""; src := "https://example.com/a.png"; alt := "";
             value := ""; naturalWidth := 200; naturalHeight := 200 |} [].

Definition gallery (n : nat) : document :=
  Element {| tagName := "html"; id := ""; classList := []; attrs := [];
             href := ""; src := ""; alt := ""; value := "";
             naturalWidth := 0; naturalHeight := 0 |}
          (repeat big_image n).

(** What a callback pushes for one node when run on its own. *)
Definition alone (S B : Type) (proj : S -> list B)
           (cb : element -> nat -> S -> S) (s0 : S) (e : element) : list B :=
  proj (cb e 0 s0).

(** [results.knowledgePanel.facts], empty when there is no panel. *)
Definition facts_of (r : Web.results) : list Fact.t :=
  match Web.knowledgePanel r with
  | Some p => Panel.facts p
  | None => []
  end.

(** A [results] object whose knowledge panel has just been created. *)
Definition panel_opened : Web.results :=
  {| Web.query := ""; Web.searchInfo := None; Web.organicResults := [];
     Web.featuredSnippet := None;
     Web.knowledgePanel :=
       Some {| Panel.title := ""; Panel.subtitle := "";
               Panel.description := ""; Panel.image := None;
               Panel.facts := [] |};
     Web.peopleAlsoAsk := []; Web.relatedSearches := []; Web.images := [];
     Web.videos := []; Web.news := []; Web.siteLinks := [] |}.

(** [out] lists, node after node of [nodes], what [per_node] gives for each;
    [nodes] are in strict document order (so no node occurs twice) and each
    node gives at most one entry.  Nothing is moved, merged or dropped on
    the way from the nodes to [out]. *)
Definition collected_in_order (B : Type) (out : list B)
           (per_node : element -> list B) (nodes : list element) : Prop :=
  in_document_order nodes
  /\ Forall (fun e => List.length (per_node e) <= 1) nodes
  /\ out = flat_map per_node nodes.

(** The projection of a callback whose state is the output array itself. *)
Definition same (B : Type) (l : list B) : list B := l.

(** An element with a tag, classes and an [href], and nothing else. *)
Definition plain (t : string) (classes : list string) (link : string) : props :=
  {| tagName := t; id := ""; classList := classes; attrs := [];
     href := link; src := ""; alt := ""; value := "";
     naturalWidth := 0; naturalHeight := 0 |}.

(** A video page with the same result block twice, and the entry each
    block gives. *)
Definition result_block : node :=
  Element (plain "div" ["g"] "")
    [Element (plain "a" [] "https://example.com/v")
       [Element (plain "h3" [] "") [Text "A video"]]].

Definition twin_page : document :=
  Element (plain "html" [] "") [result_block; result_block].

Definition a_video : Video.t :=
  {| Video.title := "A video"; Video.url := "https://example.com/v";
     Video.thumbnail := None; Video.source := ""; Video.duration := None;
     Video.uploadDate := ""; Video.description := "" |}.

(** A result block whose [h3] has no text, one whose link has no [href],
    and the page holding both.  The blocks also carry the site-link class,
    so the site-link block of the callback sees the same two nodes. *)
Definition untitled_block : node :=
  Element (plain "div" ["g"; "usJj9c"] "")
    [Element (plain "h3" [] "") [Text "  "];
     Element (plain "a" [] "https://example.com/") [Text "link"]].

Definition unlinked_block : node :=
  Element (plain "div" ["g"; "usJj9c"] "")
    [Element (plain "h3" [] "") [Text "Example"];
     Element (plain "a" [] "") [Text "anchor"]].

Definition sparse_page : document :=
  Element (plain "html" [] "") [untitled_block; unlinked_block].

(** A small results page: the query box, the statistics line, one result
    block with a favicon, one inline image inside [g-img], two free images
    and a related-search chip inside a link. *)
Definition picture (url : string) (w h : N) : node :=
  Element {| tagName := "img"; id := ""; classList := [];
             attrs := [("src", url)]; href := ""; src := url; alt := "";
             value := ""; naturalWidth := w; naturalHeight := h |} [].

Definition openai_page : document :=
  Element (plain "html" [] "")
    [Element (plain "body" [] "")
       [Element {| tagName := "input"; id := ""; classList := [];
                   attrs := [("name", "q")]; href := ""; src := ""; alt := "";
                   value := "openai"; naturalWidth := 0; naturalHeight := 0 |}
                [];
        Element {| tagName := "div"; id := "result-stats"; classList := [];
                   attrs := []; href := ""; src := ""; alt := ""; value := "";
                   naturalWidth := 0; naturalHeight := 0 |}
                [Text " About 5 results "];
        Element (plain "div" ["g"] "")
          [Element (plain "a" [] "https://openai.com/")
             [Element (plain "h3" [] "") [Text " OpenAI "]];
           Element (plain "cite" [] "") [Text "openai.com"];
           Element (plain "div" ["VwiC3b"] "") [Text "An AI lab"];
           picture "https://openai.com/favicon.ico" 16 16];
        Element (plain "g-img" [] "")
          [Element (plain "span" [] "")
             [picture "https://example.com/1.png" 300 200]];
        picture "https://example.com/2.png" 101 101;
        picture "https://example.com/3.png" 100 500;
        Element (plain "a" [] "https://www.google.com/search?q=openai+api")
          [Element (plain "div" ["k8XOCe"] "") [Text "openai api"]]]].

(** The element has a descendant matching the selector. *)
Definition has_below (e : element) (s : selector) : bool :=
  match querySelector_in e s with
  | Some _ => true
  | None => false
  end.

(** A result block with an [h3] and an [a] somewhere below it. *)
Definition titled_and_linked (e : element) : bool :=
  (has_below e Sel.h3 && has_below e Sel.a)%bool.

(** The characters of a string. *)
Fixpoint chars (s : string) : list ascii :=
  match s with
  | EmptyString => []
  | String c r => c :: chars r
  end.

End PageVocabulary.

(** ** Modes, browsers and sample requests *)

(** The four search modes, one per routine and endpoint. *)
Inductive mode := web | images | videos | news.

Section BrowserVocabulary.
Import Browser.

(** Keep of a routine its call log, its rejection and, when it resolves,
    the [success] flag of the envelope. *)
Definition flag (D : Type) (m : M (envelope D)) : M bool :=
  bind m (fun e => ret (success e)).

Definition scrape (mo : mode) (query : string) : M bool :=
  match mo with
  | web => flag (scrapeGoogleSearch query)
  | images => flag (scrapeGoogleImages query)
  | videos => flag (scrapeGoogleVideos query)
  | news => flag (scrapeGoogleNews query)
  end.

(** The endpoint of a mode and the URL its routine navigates to. *)
Definition path_of (mo : mode) : string :=
  match mo with
  | web => "/search"
  | images => "/images"
  | videos => "/videos"
  | news => "/news"
  end.

Definition searchUrl (mo : mode) (query : string) : string :=
  ("https://www.google.com/search?q=" ++ Js.encodeURIComponent query
   ++ match mo with
      | web => "&hl=en"
      | images => "&tbm=isch&hl=en"
      | videos => "&tbm=vid&hl=en"
      | news => "&tbm=nws&hl=en"
      end)%string.

(** The selector a mode waits for before extracting, if it waits. *)
Definition marker (mo : mode) : option string :=
  match mo with
  | web => Some "#search"
  | images => None
  | videos => Some ".g"
  | news => Some ".SoaBEf, .WlydOe"
  end.

(** How many times [browser.close()] was called. *)
Definition is_close (c : call) : bool := call_eqb c close.

Definition closes (log : list call) : nat := List.length (filter is_close log).

(** An empty page. *)
Definition blank_page : Dom.document := Dom.Element (plain "html" [] "") [].

(** A browser that rejects nothing. *)
Definition calm : env :=
  {| rejects := fun _ _ => None;
     document := blank_page;
     now := "2024-01-01T00:00:00.000Z" |}.

(** A browser that opens no page. *)
Definition no_page : env :=
  {| rejects := fun _ c =>
       match c with
       | newPage => Some {| message := "Unable to create new page" |}
       | _ => None
       end;
     document := blank_page;
     now := "2024-01-01T00:00:00.000Z" |}.

(** A browser whose first [close] rejects. *)
Definition close_fails_once : env :=
  {| rejects := fun log c =>
       match c with
       | close =>
           if existsb is_close log then None
           else Some {| message := "Protocol error: Target closed" |}
       | _ => None
       end;
     document := blank_page;
     now := "2024-01-01T00:00:00.000Z" |}.

(** A browser whose navigation times out. *)
Definition slow : env :=
  {| rejects := fun _ c =>
       match c with
       | goto _ _ _ =>
           Some {| message := "Navigation timeout of 30000 ms exceeded" |}
       | _ => None
       end;
     document := blank_page;
     now := "2024-01-01T00:00:00.000Z" |}.

(** The request is answered with status 400 and the missing-parameter body,
    without any browser call. *)
Definition answers_400 (req : request) (w : env) : Prop :=
  exists resp,
    run (fetch req) w = (Ok resp, [])
    /\ status resp = 400%Z
    /\ body resp = Some missing_q.

(** [GET /images?hl=en] and [GET /search?q=openai]. *)
Definition get_images_no_q : request :=
  {| method := "GET"; pathname := "/images"; searchParams := [("hl", "en")] |}.

(** An OPTIONS request to [/search] without [q]. *)
Definition preflight : request :=
  {| method := "OPTIONS"; pathname := "/search"; searchParams := [] |}.

Definition get_search_openai : request :=
  {| method := "GET"; pathname := "/search"; searchParams := [("q", "openai")] |}.

(** The [success] field of a response body, when it has one. *)
Definition success_field (resp : response) : option Json.t :=
  match body resp with
  | Some (Json.Obj fields) => Json.field "success" fields
  | _ => None
  end.

(** The four endpoint paths, and the paths [fetch] answers at all: the
    health check and the endpoints. *)
Definition endpoint_path (p : string) : bool :=
  (String.eqb p "/search" || String.eqb p "/images"
   || String.eqb p "/videos" || String.eqb p "/news")%bool.

Definition known_path (p : string) : bool :=
  (String.eqb p "/" || String.eqb p "/health" || endpoint_path p)%bool.

(** The body of the 404 response. *)
Definition not_found : Json.t :=
  Json.Obj [("error", Json.Str "Endpoint not found")].

(** [GET /search/?q=openai], [OPTIONS /news?q=x], [POST /health?q=openai]
    and [DELETE /videos?q=cats]. *)
Definition get_search_slash : request :=
  {| method := "GET"; pathname := "/search/";
     searchParams := [("q", "openai")] |}.

Definition options_news : request :=
  {| method := "OPTIONS"; pathname := "/news"; searchParams := [("q", "x")] |}.

Definition post_health_q : request :=
  {| method := "POST"; pathname := "/health";
     searchParams := [("q", "openai")] |}.

Definition delete_videos_cats : request :=
  {| method := "DELETE"; pathname := "/videos";
     searchParams := [("q", "cats")] |}.

(** What a mode awaits between navigation and extraction, and the calls of
    a run in which nothing rejects. *)
Definition settle (mo : mode) : call :=
  match mo with
  | web => waitForSelector "#search" 10000
  | images => evaluate_scroll 3 1000
  | videos => waitForSelector ".g" 10000
  | news => waitForSelector ".SoaBEf, .WlydOe" 10000
  end.

Definition full_log (mo : mode) (query : string) : list call :=
  [launch; newPage; setUserAgent userAgent;
   goto (searchUrl mo query) "networkidle0" 30000;
   settle mo; evaluate_extract; close].

(** Every call of [l], made after the calls [pre], was resolved. *)
Fixpoint answered (w : env) (pre l : list call) : bool :=
  match l with
  | [] => true
  | c :: l' =>
      match rejects w pre c with
      | None => answered w (pre ++ [c]) l'
      | Some _ => false
      end
  end.

(** The [data] of a mode's response for a rendered document. *)
Definition payload_of (mo : mode) (d : Dom.document) : Json.t :=
  match mo with
  | web => Json.web (Extract.search d)
  | images => Json.images (Extract.images d)
  | videos => Json.videos (Extract.videos d)
  | news => Json.news (Extract.news d)
  end.

(** A browser that rejects only the wait for a selector. *)
Definition no_marker : env :=
  {| rejects := fun _ c =>
       match c with
       | waitForSelector _ _ =>
           Some {| message := "Waiting for selector failed: 10000ms exceeded" |}
       | _ => None
       end;
     document := blank_page;
     now := "2024-01-01T00:00:00.000Z" |}.

End BrowserVocabulary.

(* ================================================================== *)
(** * Properties *)

(** ** [forEach] with a callback that only appends *)

Section ForEachFacts.
Variables A S B : Type.

Lemma forEach_from_appends (proj : S -> list B) (cb : A -> nat -> S -> S)
      (f : A -> nat -> list B) :
  (forall x i s, proj (cb x i s) = proj s ++ f x i) ->
  forall l i s, proj (Js.forEach_from i l cb s) = proj s ++ emitted f i l.
Proof.
  intros Hcb l; induction l as [|x l IH]; intros i s; simpl.
  - now rewrite app_nil_r.
  - rewrite IH, Hcb, <- app_assoc. reflexivity.
Qed.

Lemma forEach_from_frame (C : Type) (proj : S -> C) (cb : A -> nat -> S -> S) :
  (forall x i s, proj (cb x i s) = proj s) ->
  forall l i s, proj (Js.forEach_from i l cb s) = proj s.
Proof.
  intros Hcb l; induction l as [|x l IH]; intros i s; simpl; auto.
  now rewrite IH, Hcb.
Qed.

Lemma emitted_no_index (g : A -> list B) (l : list A) :
  forall i, emitted (fun x _ => g x) i l = flat_map g l.
Proof.
  induction l as [|x l IH]; intros i; simpl; [reflexivity|].
  now rewrite IH.
Qed.

(** A callback that emits only below index [n] emits over the first [n]
    elements. *)
Lemma emitted_capped (g : A -> list B) (n : nat) (l : list A) :
  forall i, i <= n ->
  emitted (fun x j => if Nat.ltb j n then g x else []) i l
  = flat_map g (firstn (n - i) l).
Proof.
  induction l as [|x l IH]; intros i Hi; simpl.
  - now rewrite firstn_nil.
  - destruct (Nat.ltb i n) eqn:E.
    + apply Nat.ltb_lt in E.
      replace (n - i) with (Datatypes.S (n - Datatypes.S i)) by lia.
      simpl. rewrite IH by lia. reflexivity.
    + apply Nat.ltb_ge in E.
      replace (n - i) with 0 by lia. simpl.
      clear IH Hi. revert i E.
      induction l as [|y l IHl]; intros i E; simpl; [reflexivity|].
      replace (Nat.ltb (Datatypes.S i) n) with false
        by (symmetry; apply Nat.ltb_ge; lia).
      simpl. apply IHl. lia.
Qed.

End ForEachFacts.

(** ** Document order *)

Section DocumentOrder.
Import Dom.

Lemma before_app (p a b : list nat) : before a b -> before (p ++ a) (p ++ b).
Proof. induction p as [|x p IH]; simpl; auto. Qed.

Lemma before_irrefl (a : list nat) : ~ before a a.
Proof.
  induction a as [|x a IH]; simpl; [tauto|].
  intros [H|[_ H]]; [lia | auto].
Qed.

Lemma sorted_app (R : element -> element -> Prop) (l1 l2 : list element) :
  StronglySorted R l1 -> StronglySorted R l2 ->
  (forall x y, In x l1 -> In y l2 -> R x y) ->
  StronglySorted R (l1 ++ l2).
Proof.
  induction l1 as [|x l1 IH]; simpl; intros H1 H2 H12; [assumption|].
  inversion H1 as [|? ? Hs Hf]; subst.
  constructor.
  - apply IH; auto.
  - apply Forall_app; split; [assumption|].
    apply Forall_forall; intros y Hy. apply H12; auto.
Qed.

Lemma sorted_filter (R : element -> element -> Prop) (f : element -> bool)
      (l : list element) :
  StronglySorted R l -> StronglySorted R (filter f l).
Proof.
  induction 1 as [|x l Hs IH Hf]; simpl; [constructor|].
  destruct (f x); [|assumption].
  constructor; [assumption|].
  apply Forall_forall; intros y Hy.
  apply filter_In in Hy. rewrite Forall_forall in Hf. apply Hf, Hy.
Qed.

Lemma firstn_incl (n : nat) (l : list element) (y : element) :
  In y (firstn n l) -> In y l.
Proof.
  revert n; induction l as [|x l IH]; intros [|n]; simpl; try tauto.
  intros [H|H]; eauto.
Qed.

Lemma sorted_firstn (R : element -> element -> Prop) (n : nat)
      (l : list element) :
  StronglySorted R l -> StronglySorted R (firstn n l).
Proof.
  intros H; revert n; induction H as [|x l Hs IH Hf]; intros [|n]; simpl;
    try constructor.
  - apply IH.
  - apply Forall_forall; intros y Hy. rewrite Forall_forall in Hf.
    apply Hf. eapply firstn_incl, Hy.
Qed.

(** The walk nested in [subtree] is [walk]. *)
Lemma subtree_Element (pth : list nat) (anc : list props) (p : props)
      (ks : list node) :
  subtree pth anc (Element p ks)
  = {| path := pth; ancestors := anc; self := p; kids := ks |}
      :: walk pth (p :: anc) 0 ks.
Proof.
  simpl. f_equal. generalize 0.
  induction ks as [|k ks IH]; intros i; simpl; [reflexivity|].
  now rewrite IH.
Qed.

Lemma walk_ok (pth : list nat) (anc : list props) (ks : list node) :
  Forall subtree_ok ks ->
  forall i,
    in_document_order (walk pth anc i ks)
    /\ Forall (fun e => exists j r, i <= j /\ path e = pth ++ j :: r)
              (walk pth anc i ks).
Proof.
  induction 1 as [|k ks Hk _ IH]; intros i; simpl.
  - split; constructor.
  - destruct (Hk (pth ++ [i]) anc) as [Hs Hp].
    destruct (IH (Datatypes.S i)) as [Hs' Hp'].
    rewrite Forall_forall in Hp, Hp'.
    split.
    + apply sorted_app; auto.
      intros x y Hx Hy.
      destruct (Hp x Hx) as [r Hr].
      destruct (Hp' y Hy) as [j [r' [Hj Hr']]].
      unfold precedes. rewrite Hr, Hr', <- app_assoc.
      apply before_app. simpl. left; lia.
    + apply Forall_app; split; apply Forall_forall; intros e He.
      * destruct (Hp e He) as [r Hr].
        exists i, r. split; [lia|]. now rewrite Hr, <- app_assoc.
      * destruct (Hp' e He) as [j [r [Hj Hr]]].
        exists j, r. split; [lia|assumption].
Qed.

Lemma subtree_in_order (n : node) : subtree_ok n.
Proof.
  induction n as [s|p ks IH] using node_rect'; intros pth anc.
  - simpl. split; constructor.
  - rewrite subtree_Element.
    destruct (walk_ok pth (p :: anc) IH 0) as [Hs Hp].
    rewrite Forall_forall in Hp.
    split.
    + constructor; [assumption|].
      apply Forall_forall; intros e He.
      destruct (Hp e He) as [j [r [_ Hr]]].
      unfold precedes; simpl. rewrite Hr.
      rewrite <- (app_nil_r pth) at 1. apply before_app. exact I.
    + constructor.
      * exists []. simpl. now rewrite app_nil_r.
      * apply Forall_forall; intros e He.
        destruct (Hp e He) as [j [r [_ Hr]]]. eauto.
Qed.

Lemma querySelectorAll_in_order (d : document) (s : selector) :
  in_document_order (querySelectorAll d s).
Proof. apply sorted_filter, subtree_in_order. Qed.

Lemma querySelectorAll_in_in_order (e : element) (s : selector) :
  in_document_order (querySelectorAll_in e s).
Proof.
  apply sorted_filter. unfold descendants.
  apply walk_ok.
  apply Forall_forall; intros k _. apply subtree_in_order.
Qed.

End DocumentOrder.

(* ================================================================== *)
(** ** Image search: the dimension filter, the cap and the count *)

Section ImageSearch.
Import Dom.

Lemma exceeds_100_spec (img : element) :
  exceeds_100 img = true
  <-> (100 < naturalWidth (self img) /\ 100 < naturalHeight (self img))%N.
Proof.
  unfold exceeds_100. rewrite andb_true_iff, !N.ltb_lt. tauto.
Qed.

Lemma flat_map_if (A B : Type) (p : A -> bool) (g : A -> B) (l : list A) :
  flat_map (fun x => if p x then [g x] else []) l = map g (filter p l).
Proof.
  induction l as [|x l IH]; simpl; [reflexivity|].
  destruct (p x); simpl; now rewrite IH.
Qed.

(** The array built by the [forEach] of the image callback. *)
Lemma image_forEach (nodes : list element) :
  Js.forEach nodes Extract.image_cb []
  = map Extract.image_literal (filter exceeds_100 nodes).
Proof.
  unfold Js.forEach.
  rewrite (forEach_from_appends (fun a : list Image.t => a) Extract.image_cb
             (fun e _ => if exceeds_100 e then [Extract.image_literal e] else [])).
  - simpl. now rewrite emitted_no_index, flat_map_if.
  - intros x i s. unfold Extract.image_cb, exceeds_100, Js.push.
    destruct (_ && _)%bool; [reflexivity | now rewrite app_nil_r].
Qed.

(** C3: the image callback keeps exactly the [img] nodes whose width and
    height are both above 100, in document order; [images] is the first 50
    of them, so it never holds more than 50; [totalImages] is the number of
    all of them, before the cut; and on a page with 51 large images
    [totalImages] is 51 while [images] holds 50. *)
Theorem images_filter_cap_total :
  (forall d : document,
     let candidates := filter exceeds_100 (querySelectorAll d Sel.img) in
     ImagesData.images (Extract.images d)
       = firstn 50 (map Extract.image_literal candidates)
     /\ List.length (ImagesData.images (Extract.images d)) <= 50
     /\ ImagesData.totalImages (Extract.images d) = List.length candidates
     /\ Forall (fun e => (100 < naturalWidth (self e)
                          /\ 100 < naturalHeight (self e))%N) candidates
     /\ Forall (fun x => (100 < Image.width x /\ 100 < Image.height x)%N)
               (ImagesData.images (Extract.images d)))
  /\ ImagesData.totalImages (Extract.images (gallery 51)) = 51
  /\ List.length (ImagesData.images (Extract.images (gallery 51))) = 50.
Proof.
  split; [|split; vm_compute; reflexivity].
  intros d candidates.
  assert (Hc : Forall (fun e => (100 < naturalWidth (self e)
                                 /\ 100 < naturalHeight (self e))%N)
                      candidates).
  { apply Forall_forall; intros e He.
    apply filter_In in He. now apply exceeds_100_spec. }
  unfold Extract.images, Js.slice0.
  cbn [ImagesData.images ImagesData.totalImages].
  rewrite image_forEach. fold candidates.
  repeat split.
  - apply firstn_le_length.
  - now rewrite length_map.
  - exact Hc.
  - apply Forall_forall; intros x Hx.
    assert (Hin : In x (map Extract.image_literal candidates)).
    { rewrite <- (firstn_skipn 50). apply in_or_app; now left. }
    apply in_map_iff in Hin. destruct Hin as [e [<- He]].
    rewrite Forall_forall in Hc. exact (Hc e He).
Qed.

End ImageSearch.

(* ================================================================== *)
(** ** Video and news search: the counts *)

Section Counts.
Import Browser.

(** C9: the video result's [totalVideos] is the length of its [videos] and
    the news result's [totalArticles] is the length of its [articles], for
    the callbacks on every document and for every envelope the two routines
    resolve with. *)
Theorem totals_are_lengths :
  (forall d : Dom.document,
     VideosData.totalVideos (Extract.videos d)
       = List.length (VideosData.videos (Extract.videos d))
     /\ NewsData.totalArticles (Extract.news d)
       = List.length (NewsData.articles (Extract.news d)))
  /\ (forall (w : env) (query : string),
        match fst (run (scrapeGoogleVideos query) w) with
        | Ok r => VideosData.totalVideos (data r)
                  = List.length (VideosData.videos (data r))
        | Throw _ => True
        end
        /\ match fst (run (scrapeGoogleNews query) w) with
           | Ok r => NewsData.totalArticles (data r)
                     = List.length (NewsData.articles (data r))
           | Throw _ => True
           end).
Proof.
  split.
  - intros d; split; reflexivity.
  - intros w query.
    unfold run, scrapeGoogleVideos, scrapeGoogleNews, bind, try_catch, await,
      evaluate, toISOString, ret, throw.
    split;
      repeat match goal with
             | |- context [rejects w ?l ?c] => destruct (rejects w l c)
             end; simpl; auto.
Qed.

End Counts.

(* ================================================================== *)
(** ** Web search: which block writes which field *)

Section WebSearch.
Import Dom.

Lemma forEach_frame (A S C : Type) (proj : S -> C) (cb : A -> nat -> S -> S)
      (l : list A) (s : S) :
  (forall x i s, proj (cb x i s) = proj s) ->
  proj (Js.forEach l cb s) = proj s.
Proof. intros H. unfold Js.forEach. now apply forEach_from_frame. Qed.

Lemma forEach_collects (S B : Type) (proj : S -> list B)
      (cb : element -> nat -> S -> S) (s0 : S) (l : list element) (s : S) :
  (forall x i s, proj (cb x i s) = proj s ++ alone proj cb s0 x) ->
  proj (Js.forEach l cb s) = proj s ++ flat_map (alone proj cb s0) l.
Proof.
  intros H. unfold Js.forEach.
  rewrite (forEach_from_appends proj cb (fun x _ => alone proj cb s0 x))
    by exact H.
  now rewrite emitted_no_index.
Qed.

Lemma forEach_collects_capped (S B : Type) (proj : S -> list B)
      (cb : element -> nat -> S -> S) (s0 : S) (n : nat) (l : list element)
      (s : S) :
  (forall x i s,
      proj (cb x i s)
      = proj s ++ (if Nat.ltb i n then alone proj cb s0 x else [])) ->
  proj (Js.forEach l cb s) = proj s ++ flat_map (alone proj cb s0) (firstn n l).
Proof.
  intros H. unfold Js.forEach.
  rewrite (forEach_from_appends proj cb
             (fun x j => if Nat.ltb j n then alone proj cb s0 x else []))
    by exact H.
  rewrite emitted_capped by lia. now rewrite Nat.sub_0_r.
Qed.

Lemma flat_map_singleton (A B : Type) (g : A -> B) (l : list A) :
  flat_map (fun x => [g x]) l = map g l.
Proof. induction l as [|x l IH]; simpl; congruence. Qed.

(** Case analysis on the guards of a callback. *)
Ltac guards :=
  repeat match goal with
         | |- context [match ?x with _ => _ end] => destruct x eqn:?
         end.

Ltac untouched :=
  intros;
  cbv [Extract.organic_cb Extract.fact_cb Extract.paa_cb Extract.related_cb
       Extract.inline_image_cb Extract.inline_video_cb Extract.inline_news_cb
       Extract.site_link_cb Web.push_fact];
  guards; reflexivity.

Lemma search_stats_frame (C : Type) (proj : Web.results -> C)
      (d : document) (r : Web.results) :
  (forall v r, proj (Web.set_searchInfo v r) = proj r) ->
  proj (Extract.search_stats d r) = proj r.
Proof. intros H. unfold Extract.search_stats. guards; auto. Qed.

Lemma featured_frame (C : Type) (proj : Web.results -> C)
      (d : document) (r : Web.results) :
  (forall v r, proj (Web.set_featuredSnippet v r) = proj r) ->
  proj (Extract.featured_block d r) = proj r.
Proof. intros H. unfold Extract.featured_block. guards; auto. Qed.

Lemma panel_frame (C : Type) (proj : Web.results -> C)
      (d : document) (r : Web.results) :
  (forall v r, proj (Web.set_knowledgePanel v r) = proj r) ->
  proj (Extract.panel_block d r) = proj r.
Proof.
  intros H. unfold Extract.panel_block.
  destruct (querySelector d Sel.panel); [|reflexivity].
  rewrite forEach_frame; [apply H|].
  intros x i s. unfold Extract.fact_cb, Web.push_fact. guards; auto.
Qed.

(** Strip from a projection of [Extract.search] the blocks that do not
    write the projected field. *)
Ltac peel proj :=
  repeat first
    [ rewrite (@forEach_frame _ _ _ proj) by untouched
    | rewrite (@featured_frame _ proj) by reflexivity
    | rewrite (@panel_frame _ proj) by reflexivity
    | rewrite (@search_stats_frame _ proj) by reflexivity ].

Lemma organicResults_search (d : document) :
  Web.organicResults (Extract.search d)
  = flat_map (alone Web.organicResults Extract.organic_cb
                    (Extract.search_init d))
             (querySelectorAll d Sel.organic).
Proof.
  unfold Extract.search; cbv zeta.
  peel Web.organicResults.
  rewrite (forEach_collects Web.organicResults Extract.organic_cb
             (Extract.search_init d)).
  - peel Web.organicResults. reflexivity.
  - intros x i s. unfold alone, Extract.organic_cb. guards; simpl;
      try reflexivity; now rewrite app_nil_r.
Qed.

Ltac collect proj cb d :=
  unfold Extract.search; cbv zeta; peel proj;
  rewrite (forEach_collects proj cb (Extract.search_init d));
  [ peel proj; reflexivity
  | intros x i s; unfold alone;
    cbv [Extract.paa_cb Extract.related_cb Extract.inline_video_cb
         Extract.inline_news_cb Extract.site_link_cb];
    guards; simpl; try reflexivity; now rewrite app_nil_r ].

Lemma peopleAlsoAsk_search (d : document) :
  Web.peopleAlsoAsk (Extract.search d)
  = flat_map (alone Web.peopleAlsoAsk Extract.paa_cb (Extract.search_init d))
             (querySelectorAll d Sel.paa).
Proof. collect Web.peopleAlsoAsk Extract.paa_cb d. Qed.

Lemma relatedSearches_search (d : document) :
  Web.relatedSearches (Extract.search d)
  = flat_map (alone Web.relatedSearches Extract.related_cb
                    (Extract.search_init d))
             (querySelectorAll d Sel.related).
Proof. collect Web.relatedSearches Extract.related_cb d. Qed.

Lemma videos_search (d : document) :
  Web.videos (Extract.search d)
  = flat_map (alone Web.videos Extract.inline_video_cb (Extract.search_init d))
             (querySelectorAll d Sel.inline_videos).
Proof. collect Web.videos Extract.inline_video_cb d. Qed.

Lemma news_search (d : document) :
  Web.news (Extract.search d)
  = flat_map (alone Web.news Extract.inline_news_cb (Extract.search_init d))
             (querySelectorAll d Sel.inline_news).
Proof. collect Web.news Extract.inline_news_cb d. Qed.

Lemma siteLinks_search (d : document) :
  Web.siteLinks (Extract.search d)
  = flat_map (alone Web.siteLinks Extract.site_link_cb (Extract.search_init d))
             (querySelectorAll d Sel.site_links).
Proof. collect Web.siteLinks Extract.site_link_cb d. Qed.

Lemma images_search (d : document) :
  Web.images (Extract.search d)
  = flat_map (alone Web.images Extract.inline_image_cb (Extract.search_init d))
             (firstn 20 (querySelectorAll d Sel.inline_images)).
Proof.
  unfold Extract.search; cbv zeta. peel Web.images.
  rewrite (forEach_collects_capped Web.images Extract.inline_image_cb
             (Extract.search_init d) 20).
  - peel Web.images. reflexivity.
  - intros x i s. unfold alone, Extract.inline_image_cb.
    destruct (Nat.ltb i 20); simpl; [reflexivity | now rewrite app_nil_r].
Qed.

(** C8: the inline [images] of the web result are the objects built from
    the first 20 matched image nodes, in document order; there are never
    more than 20. *)
Theorem inline_images_capped (d : document) :
  Web.images (Extract.search d)
  = map Extract.inline_image_literal
        (firstn 20 (querySelectorAll d Sel.inline_images))
  /\ List.length (Web.images (Extract.search d)) <= 20
  /\ in_document_order (firstn 20 (querySelectorAll d Sel.inline_images)).
Proof.
  assert (E : Web.images (Extract.search d)
              = map Extract.inline_image_literal
                    (firstn 20 (querySelectorAll d Sel.inline_images))).
  { rewrite images_search. apply flat_map_singleton. }
  rewrite E. split; [reflexivity|]. split.
  - rewrite length_map. apply firstn_le_length.
  - apply sorted_firstn, querySelectorAll_in_order.
Qed.

(** *** The facts of the knowledge panel *)

Lemma forEach_collects_inv (S B : Type) (Inv : S -> Prop) (proj : S -> list B)
      (cb : element -> nat -> S -> S) (s0 : S) (l : list element) :
  (forall x i s, Inv s ->
     Inv (cb x i s) /\ proj (cb x i s) = proj s ++ alone proj cb s0 x) ->
  forall s, Inv s ->
    proj (Js.forEach l cb s) = proj s ++ flat_map (alone proj cb s0) l.
Proof.
  intros H. unfold Js.forEach. generalize 0.
  induction l as [|x l IH]; intros i s Hs; simpl.
  - now rewrite app_nil_r.
  - destruct (H x i s Hs) as [Hi He].
    rewrite (IH _ _ Hi), He, <- app_assoc. reflexivity.
Qed.

Lemma facts_search (d : document) :
  match querySelector d Sel.panel with
  | Some kp =>
      Web.knowledgePanel (Extract.search d) <> None
      /\ facts_of (Extract.search d)
         = flat_map (alone facts_of Extract.fact_cb panel_opened)
                    (querySelectorAll_in kp Sel.panel_facts)
  | None => Web.knowledgePanel (Extract.search d) = None
  end.
Proof.
  unfold Extract.search; cbv zeta.
  peel facts_of. peel Web.knowledgePanel.
  unfold Extract.panel_block.
  destruct (querySelector d Sel.panel) as [kp|].
  - split.
    + assert (Hinv : forall l i s, Web.knowledgePanel s <> None ->
                Web.knowledgePanel (Js.forEach_from i l Extract.fact_cb s)
                <> None).
      { induction l as [|x l IH]; intros i s Hs; simpl; [assumption|].
        apply IH. unfold Extract.fact_cb, Web.push_fact.
        guards; simpl; congruence. }
      apply Hinv. simpl. discriminate.
    + rewrite (forEach_collects_inv
                 (fun s => Web.knowledgePanel s <> None) facts_of
                 Extract.fact_cb panel_opened).
      * reflexivity.
      * intros x i s Hs. unfold alone, facts_of, Extract.fact_cb, Web.push_fact.
        destruct (Web.knowledgePanel s) as [p|] eqn:Ep; [|congruence].
        destruct (_ && _)%bool; simpl; rewrite ?Ep; simpl.
        -- split; [discriminate | reflexivity].
        -- split; [congruence | now rewrite app_nil_r].
      * simpl. discriminate.
  - peel Web.knowledgePanel. reflexivity.
Qed.

(** *** The optional blocks and the query field *)


(** X11: the optional parts of the web result follow the page: [featuredSnippet]
    is null exactly when no element matches the featured-snippet selector,
    [knowledgePanel] is null exactly when no element matches the panel
    selector, and [searchInfo] is the empty object exactly when the page has
    no [#result-stats]; the other blocks of the callback do not touch
    them. *)
Theorem optional_blocks_follow_the_page (d : document) :
  (Web.featuredSnippet (Extract.search d) = None
   <-> querySelector d Sel.featured = None)
  /\ (Web.knowledgePanel (Extract.search d) = None
      <-> querySelector d Sel.panel = None)
  /\ (Web.searchInfo (Extract.search d) = None
      <-> querySelector d Sel.result_stats = None).
Proof.
  repeat split.
  - unfold Extract.search; cbv zeta. peel Web.featuredSnippet.
    unfold Extract.featured_block.
    destruct (querySelector d Sel.featured); [simpl; discriminate|].
    intros _; reflexivity.
  - unfold Extract.search; cbv zeta. peel Web.featuredSnippet.
    unfold Extract.featured_block.
    intros ->. peel Web.featuredSnippet. reflexivity.
  - pose proof (facts_search d) as H.
    destruct (querySelector d Sel.panel); [|reflexivity].
    destruct H as [H _]. intros E. contradiction.
  - pose proof (facts_search d) as H. intros E. rewrite E in H. exact H.
  - unfold Extract.search; cbv zeta. peel Web.searchInfo.
    unfold Extract.search_stats.
    destruct (querySelector d Sel.result_stats); [simpl; discriminate|].
    intros _; reflexivity.
  - unfold Extract.search; cbv zeta. peel Web.searchInfo.
    unfold Extract.search_stats. intros ->. reflexivity.
Qed.

End WebSearch.

(* ================================================================== *)
(** ** Output order is document order *)

Section Ordering.
Import Dom.

Ltac at_most_one :=
  apply Forall_forall; intros e _; unfold alone, facts_of, same;
  cbv [Extract.organic_cb Extract.fact_cb Extract.paa_cb Extract.related_cb
       Extract.inline_image_cb Extract.inline_video_cb Extract.inline_news_cb
       Extract.site_link_cb Extract.image_cb Extract.video_cb
       Extract.article_cb Web.push_fact];
  repeat match goal with
         | |- context [if ?b then _ else _] => destruct b eqn:?
         end;
  simpl;
  repeat match goal with
         | |- context [match ?x with _ => _ end] => destruct x eqn:?
         end;
  simpl; lia.

Ltac list_mode cb :=
  unfold Js.forEach;
  rewrite (forEach_from_appends (@same _) cb (fun x _ => alone (@same _) cb [] x));
  [ now rewrite emitted_no_index
  | intros x i s; unfold alone, same; cbv [Extract.image_cb Extract.video_cb
                                           Extract.article_cb Js.push];
    repeat match goal with
           | |- context [match ?x with _ => _ end] => destruct x eqn:?
           end;
    simpl; try reflexivity; now rewrite app_nil_r ].

Lemma image_forEach_order (nodes : list element) :
  Js.forEach nodes Extract.image_cb []
  = flat_map (alone (@same _) Extract.image_cb []) nodes.
Proof. change (Js.forEach nodes Extract.image_cb [])
         with (same (Js.forEach nodes Extract.image_cb [])).
       list_mode Extract.image_cb. Qed.

Lemma video_forEach_order (nodes : list element) :
  Js.forEach nodes Extract.video_cb []
  = flat_map (alone (@same _) Extract.video_cb []) nodes.
Proof. change (Js.forEach nodes Extract.video_cb [])
         with (same (Js.forEach nodes Extract.video_cb [])).
       list_mode Extract.video_cb. Qed.

Lemma article_forEach_order (nodes : list element) :
  Js.forEach nodes Extract.article_cb []
  = flat_map (alone (@same _) Extract.article_cb []) nodes.
Proof. change (Js.forEach nodes Extract.article_cb [])
         with (same (Js.forEach nodes Extract.article_cb [])).
       list_mode Extract.article_cb. Qed.

(** C7: in every mode each output collection lists, in document order of
    the matched nodes, what the callback pushes for each node: nothing is
    re-sorted, merged or scored.  The inline images come from the first 20
    matched nodes and the image search returns the first 50 entries of the
    full ordered list.  Two identical result blocks give two identical
    entries. *)
Theorem collections_in_document_order (d : document) :
  collected_in_order (Web.organicResults (Extract.search d))
    (alone Web.organicResults Extract.organic_cb (Extract.search_init d))
    (querySelectorAll d Sel.organic)
  /\ collected_in_order (Web.peopleAlsoAsk (Extract.search d))
       (alone Web.peopleAlsoAsk Extract.paa_cb (Extract.search_init d))
       (querySelectorAll d Sel.paa)
  /\ collected_in_order (Web.relatedSearches (Extract.search d))
       (alone Web.relatedSearches Extract.related_cb (Extract.search_init d))
       (querySelectorAll d Sel.related)
  /\ collected_in_order (Web.images (Extract.search d))
       (alone Web.images Extract.inline_image_cb (Extract.search_init d))
       (firstn 20 (querySelectorAll d Sel.inline_images))
  /\ collected_in_order (Web.videos (Extract.search d))
       (alone Web.videos Extract.inline_video_cb (Extract.search_init d))
       (querySelectorAll d Sel.inline_videos)
  /\ collected_in_order (Web.news (Extract.search d))
       (alone Web.news Extract.inline_news_cb (Extract.search_init d))
       (querySelectorAll d Sel.inline_news)
  /\ collected_in_order (Web.siteLinks (Extract.search d))
       (alone Web.siteLinks Extract.site_link_cb (Extract.search_init d))
       (querySelectorAll d Sel.site_links)
  /\ match querySelector d Sel.panel with
     | Some kp =>
         collected_in_order (facts_of (Extract.search d))
           (alone facts_of Extract.fact_cb panel_opened)
           (querySelectorAll_in kp Sel.panel_facts)
     | None => Web.knowledgePanel (Extract.search d) = None
     end
  /\ (exists all : list Image.t,
        collected_in_order all (alone (@same _) Extract.image_cb [])
                           (querySelectorAll d Sel.img)
        /\ ImagesData.images (Extract.images d) = firstn 50 all)
  /\ collected_in_order (VideosData.videos (Extract.videos d))
       (alone (@same _) Extract.video_cb []) (querySelectorAll d Sel.g)
  /\ collected_in_order (NewsData.articles (Extract.news d))
       (alone (@same _) Extract.article_cb []) (querySelectorAll d Sel.articles)
  /\ VideosData.videos (Extract.videos twin_page) = [a_video; a_video].
Proof.
  unfold collected_in_order.
  repeat match goal with |- _ /\ _ => split end;
    try apply querySelectorAll_in_order;
    try (apply sorted_firstn, querySelectorAll_in_order);
    try at_most_one.
  - apply organicResults_search.
  - apply peopleAlsoAsk_search.
  - apply relatedSearches_search.
  - apply images_search.
  - apply videos_search.
  - apply news_search.
  - apply siteLinks_search.
  - pose proof (facts_search d) as H.
    destruct (querySelector d Sel.panel) as [kp|]; [|exact H].
    destruct H as [_ H].
    split; [apply querySelectorAll_in_in_order|].
    split; [at_most_one | exact H].
  - exists (Js.forEach (querySelectorAll d Sel.img) Extract.image_cb []).
    split; [|reflexivity].
    split; [apply querySelectorAll_in_order|].
    split; [at_most_one | apply image_forEach_order].
  - apply video_forEach_order.
  - apply article_forEach_order.
  - vm_compute. reflexivity.
Qed.

End Ordering.

(* ================================================================== *)
(** ** Organic results with an empty title or url *)

Section OrganicFields.
Import Dom.

(** The callbacks on [openai_page]. *)
Example search_openai_page :
  Web.query (Extract.search openai_page) = "openai"
  /\ Web.searchInfo (Extract.search openai_page) = Some "About 5 results"
  /\ Web.organicResults (Extract.search openai_page)
     = [ {| Organic.title := "OpenAI"; Organic.url := "https://openai.com/";
            Organic.displayUrl := "openai.com"; Organic.snippet := "An AI lab";
            Organic.favicon := Some "https://openai.com/favicon.ico" |} ]
  /\ Web.relatedSearches (Extract.search openai_page)
     = [ {| Related.text := "openai api";
            Related.url := "https://www.google.com/search?q=openai+api" |} ]
  /\ map InlineImage.src (Web.images (Extract.search openai_page))
     = ["https://example.com/1.png"]
  /\ map Image.src (ImagesData.images (Extract.images openai_page))
     = ["https://example.com/1.png"; "https://example.com/2.png"]
  /\ ImagesData.totalImages (Extract.images openai_page) = 2.
Proof. repeat split; vm_compute; reflexivity. Qed.

(** C4 at [sparse_page]: both blocks are emitted into [organicResults], the
    first with an empty [title], the second with an empty [url]; the
    site-link block, which tests the strings, emits neither. *)
Theorem organic_entries_with_empty_fields :
  Web.organicResults (Extract.search sparse_page)
  = [ {| Organic.title := ""; Organic.url := "https://example.com/";
         Organic.displayUrl := ""; Organic.snippet := "";
         Organic.favicon := None |};
      {| Organic.title := "Example"; Organic.url := "";
         Organic.displayUrl := ""; Organic.snippet := "";
         Organic.favicon := None |} ]
  /\ Web.siteLinks (Extract.search sparse_page) = [].
Proof. split; vm_compute; reflexivity. Qed.

(** What the guard of the organic block does ensure: a node is emitted
    exactly when it has an [h3] and an [a] below it. *)
Lemma organic_emitted_iff (e : element) (s0 : Web.results) :
  Web.organicResults s0 = [] ->
  (alone Web.organicResults Extract.organic_cb s0 e <> []
   <-> (querySelector_in e Sel.h3 <> None
        /\ querySelector_in e Sel.a <> None)).
Proof.
  intros H0. unfold alone, Extract.organic_cb.
  destruct (querySelector_in e Sel.h3), (querySelector_in e Sel.a);
    simpl; rewrite ?H0; simpl;
    (split;
     [ intros H; try (exfalso; apply H; reflexivity); split; discriminate
     | intros [H1 H2]; try discriminate;
       try (exfalso; apply H1; reflexivity);
       try (exfalso; apply H2; reflexivity) ]).
Qed.

End OrganicFields.

(* ================================================================== *)
(** ** The routines and the router *)

Section Modes.
Import Browser.

(** Case analysis on the browser's answer to each call of the goal. *)
Ltac step_calls w :=
  repeat match goal with
         | |- context [rejects w ?l ?c] => destruct (rejects w l c) eqn:?
         end.

(** Unfold a routine down to the browser's answers; the extraction
    callback is kept as an unknown function of the document. *)
Ltac forget_callbacks :=
  try (generalize Extract.search; intros ?callback);
  try (generalize Extract.images; intros ?callback);
  try (generalize Extract.videos; intros ?callback);
  try (generalize Extract.news; intros ?callback).

Ltac unfold_routines :=
  unfold run, scrape, flag, scrapeGoogleSearch, scrapeGoogleImages,
    scrapeGoogleVideos, scrapeGoogleNews, bind, try_catch, await, evaluate,
    toISOString, ret, throw in *;
  forget_callbacks.

(** When the page was opened and [close] does not reject, the browser is
    closed exactly once, whether the routine resolves or rejects. *)
Lemma closed_once_after_newPage (mo : mode) (query : string) (w : env) :
  rejects w [] launch = None ->
  rejects w [launch] newPage = None ->
  (forall log, rejects w log close = None) ->
  closes (snd (run (scrape mo query) w)) = 1.
Proof.
  intros Hl Hn Hc.
  destruct mo; unfold_routines; simpl; rewrite Hl; simpl; rewrite Hn; simpl;
    repeat first
      [ rewrite Hc
      | match goal with
        | |- context [rejects w ?l ?c] => destruct (rejects w l c) eqn:?
        end ];
    reflexivity.
Qed.

(** C1 at two browsers.  When [newPage] rejects, every routine rejects
    after [launch] and [newPage] without a single [close]: the launched
    browser is left open.  When the first [close] rejects, every routine
    calls [close] a second time. *)
Theorem close_not_exactly_once (mo : mode) (query : string) :
  run (scrape mo query) no_page
  = (Throw {| message := "Unable to create new page" |}, [launch; newPage])
  /\ closes (snd (run (scrape mo query) no_page)) = 0
  /\ closes (snd (run (scrape mo query) close_fails_once)) = 2.
Proof. destruct mo; repeat split; vm_compute; reflexivity. Qed.

(** *** Waiting for the marker *)

(** C5, for the modes that have a marker (web, videos, news): whenever the
    extraction callback is evaluated, the calls up to it are exactly
    launch, newPage, setUserAgent, the navigation to the mode's URL with a
    30 s timeout, then the wait for the mode's marker with a 10 s timeout,
    then the evaluation. *)
Theorem marker_wait_precedes_extraction
        (mo : mode) (sel query : string) (w : env) :
  marker mo = Some sel ->
  In evaluate_extract (snd (run (scrape mo query) w)) ->
  exists rest,
    snd (run (scrape mo query) w)
    = [launch; newPage; setUserAgent userAgent;
       goto (searchUrl mo query) "networkidle0" 30000;
       waitForSelector sel 10000; evaluate_extract] ++ rest.
Proof.
  intros Hm; revert Hm.
  destruct mo; simpl; intros Hm; inversion Hm; subst sel; clear Hm;
    unfold_routines; unfold searchUrl; simpl;
    step_calls w; simpl; intros Hin;
    try (eexists; reflexivity);
    repeat match goal with
           | H : _ \/ _ |- _ => destruct H
           | H : _ = evaluate_extract |- _ => discriminate H
           | H : False |- _ => contradiction
           end.
Qed.

Lemma marker_wait_precedes_extraction_web_calm :
  exists rest,
    snd (run (scrape web "openai") calm)
    = [launch; newPage; setUserAgent userAgent;
       goto (searchUrl web "openai") "networkidle0" 30000;
       waitForSelector "#search" 10000; evaluate_extract] ++ rest.
Proof.
  apply (@marker_wait_precedes_extraction web "#search" "openai" calm).
  - reflexivity.
  - vm_compute. tauto.
Defined.

(** The image routine never waits for a selector: between navigation and
    extraction it evaluates the three scroll cycles. *)
Lemma images_never_wait (query : string) (w : env) (sel : string) (t : Z) :
  ~ In (waitForSelector sel t) (snd (run (scrape images query) w)).
Proof.
  unfold_routines; simpl; step_calls w; simpl;
    intros H;
    repeat match goal with
           | H : _ \/ _ |- _ => destruct H
           | H : _ = waitForSelector _ _ |- _ => discriminate H
           | H : False |- _ => contradiction
           end.
Qed.

(** C5 as stated fails for the image mode: with a browser that rejects
    nothing, the extraction callback is evaluated and no selector was
    waited for; the log is launch, newPage, setUserAgent, goto, the scroll
    evaluation, the extraction, close. *)
Lemma images_extract_without_marker_wait :
  snd (run (scrape images "cats") calm)
  = [launch; newPage; setUserAgent userAgent;
     goto (searchUrl images "cats") "networkidle0" 30000;
     evaluate_scroll 3 1000; evaluate_extract; close]
  /\ In evaluate_extract (snd (run (scrape images "cats") calm))
  /\ forall sel t,
       ~ In (waitForSelector sel t) (snd (run (scrape images "cats") calm)).
Proof.
  split; [vm_compute; reflexivity|].
  split; [vm_compute; tauto|].
  intros sel t. apply images_never_wait.
Qed.

(** *** The router *)

(** Every invocation of a routine leaves at least [launch] in the log, so an
    empty log means that no routine was invoked. *)
Lemma invocation_is_logged (mo : mode) (query : string) (w : env) :
  snd (run (scrape mo query) w) <> [].
Proof.
  destruct mo; unfold_routines; simpl;
    destruct (rejects w [] launch); simpl; try discriminate;
    destruct (rejects w [launch] newPage); simpl; try discriminate;
    step_calls w; simpl; discriminate.
Qed.

(** C2, for requests other than OPTIONS: on each of the four endpoints a
    request whose [q] is absent or empty is answered with status 400 and the
    body [{"error": "Missing query parameter 'q'"}], and the log of browser
    calls stays empty.  As any invocation of a routine logs at least its
    [launch], no routine was invoked. *)
Theorem missing_query_rejected (mo : mode) (req : request) (w : env) :
  method req <> "OPTIONS" ->
  pathname req = path_of mo ->
  (searchParams_get "q" (searchParams req) = None
   \/ searchParams_get "q" (searchParams req) = Some "") ->
  run (fetch req) w
  = (Ok {| body := Some (Json.Obj [("error",
                                    Json.Str "Missing query parameter 'q'")]);
           status := 400; headers := jsonHeaders |}, [])
  /\ answers_400 req w
  /\ (forall mo' query, snd (run (scrape mo' query) w) <> []).
Proof.
  intros Hm Hp Hq.
  assert (E : run (fetch req) w
              = (Ok {| body := Some missing_q; status := 400;
                       headers := jsonHeaders |}, [])).
  { unfold run, fetch. apply String.eqb_neq in Hm. rewrite Hm, Hp.
    destruct mo; simpl; unfold endpoint;
      destruct Hq as [-> | ->]; reflexivity. }
  split; [exact E|]. split.
  - eexists; split; [exact E|]. split; reflexivity.
  - intros mo' query. apply invocation_is_logged.
Qed.

Lemma missing_query_rejected_images :
  run (fetch get_images_no_q) calm
  = (Ok {| body := Some (Json.Obj [("error",
                                    Json.Str "Missing query parameter 'q'")]);
           status := 400; headers := jsonHeaders |}, [])
  /\ answers_400 get_images_no_q calm
  /\ (forall mo' query, snd (run (scrape mo' query) calm) <> []).
Proof.
  apply (@missing_query_rejected images get_images_no_q calm).
  - vm_compute. discriminate.
  - reflexivity.
  - left. reflexivity.
Defined.

(** C2 as stated fails for OPTIONS requests: the preflight to [/search]
    has no [q] and is answered with an empty 200, not with 400. *)
Lemma preflight_without_q_gets_200 :
  pathname preflight = "/search"
  /\ searchParams_get "q" (searchParams preflight) = None
  /\ run (fetch preflight) calm
     = (Ok {| body := None; status := 200; headers := corsHeaders |}, [])
  /\ ~ answers_400 preflight calm.
Proof.
  repeat split.
  intros [resp [E [Hs _]]].
  vm_compute in E. inversion E; subst resp. discriminate Hs.
Qed.

(** C6: when a routine rejects with an error, the router answers the
    request that invoked it with status 500 and the body [{"error": m}],
    [m] being that error's message; the browser calls are those of the
    routine. *)
Theorem extraction_error_is_500
        (mo : mode) (req : request) (w : env) (q : string) (e : error) :
  method req <> "OPTIONS" ->
  pathname req = path_of mo ->
  searchParams_get "q" (searchParams req) = Some q ->
  q <> "" ->
  fst (run (scrape mo q) w) = Throw e ->
  run (fetch req) w
  = (Ok {| body := Some (Json.Obj [("error", Json.Str (message e))]);
           status := 500; headers := jsonHeaders |},
     snd (run (scrape mo q) w)).
Proof.
  intros Hm Hp Hq Hne Hthrow.
  unfold run, fetch in *. apply String.eqb_neq in Hm. rewrite Hm, Hp.
  destruct q as [|c q]; [congruence|].
  destruct mo; simpl in *; unfold endpoint; rewrite Hq; simpl;
    unfold flag, try_catch, bind, ret in *;
    match goal with
    | |- context [?f (String c q) w []] =>
        destruct (f (String c q) w []) as [[r|e'] log]
    end; simpl in *; congruence.
Qed.

Lemma extraction_error_is_500_timeout :
  run (fetch get_search_openai) slow
  = (Ok {| body :=
             Some (Json.Obj
                     [("error",
                       Json.Str "Navigation timeout of 30000 ms exceeded")]);
           status := 500; headers := jsonHeaders |},
     snd (run (scrape web "openai") slow)).
Proof.
  apply (@extraction_error_is_500 web get_search_openai slow "openai"
           {| message := "Navigation timeout of 30000 ms exceeded" |}).
  - vm_compute. discriminate.
  - reflexivity.
  - reflexivity.
  - discriminate.
  - vm_compute. reflexivity.
Defined.

(** *** The [success] flag *)

Lemma scrapeGoogleSearch_success (query : string) (w : env) :
  match fst (run (scrapeGoogleSearch query) w) with
  | Ok r => success r = true
  | Throw _ => True
  end.
Proof. unfold_routines; step_calls w; simpl; auto. Qed.

Lemma scrapeGoogleImages_success (query : string) (w : env) :
  match fst (run (scrapeGoogleImages query) w) with
  | Ok r => success r = true
  | Throw _ => True
  end.
Proof. unfold_routines; step_calls w; simpl; auto. Qed.

Lemma scrapeGoogleVideos_success (query : string) (w : env) :
  match fst (run (scrapeGoogleVideos query) w) with
  | Ok r => success r = true
  | Throw _ => True
  end.
Proof. unfold_routines; step_calls w; simpl; auto. Qed.

Lemma scrapeGoogleNews_success (query : string) (w : env) :
  match fst (run (scrapeGoogleNews query) w) with
  | Ok r => success r = true
  | Throw _ => True
  end.
Proof. unfold_routines; step_calls w; simpl; auto. Qed.

Lemma endpoint_success (D : Type) (scrape_ : string -> M (envelope D))
      (payload : D -> Json.t) (req : request) (w : env) :
  (forall query, match fst (run (scrape_ query) w) with
                 | Ok r => success r = true
                 | Throw _ => True
                 end) ->
  exists resp,
    fst (run (endpoint scrape_ payload req) w) = Ok resp
    /\ (success_field resp = None /\ status resp <> 200%Z
        \/ success_field resp = Some (Json.Bool true) /\ status resp = 200%Z).
Proof.
  intros H. unfold run, endpoint in *.
  destruct (negb (Js.truthy (searchParams_get "q" (searchParams req)))).
  - eexists; split; [reflexivity|]. left. split; [reflexivity|discriminate].
  - unfold try_catch, bind, ret.
    specialize (H (Extract.str (searchParams_get "q" (searchParams req)))).
    destruct (scrape_ _ w []) as [[r|e] log]; simpl in *.
    + eexists; split; [reflexivity|]. right.
      unfold success_field; simpl. rewrite H. split; reflexivity.
    + eexists; split; [reflexivity|]. left. split; [reflexivity|discriminate].
Qed.

(** C10: whenever one of the four routines resolves, the envelope has
    [success] equal to [true]; and the router never rejects: its response
    either carries [success: true] with status 200, or carries no [success]
    field at all.  An envelope with [success: false] is never produced. *)
Theorem resolved_envelopes_have_success_true :
  (forall (mo : mode) (query : string) (w : env),
     match fst (run (scrape mo query) w) with
     | Ok b => b = true
     | Throw _ => True
     end)
  /\ (forall (query : string) (w : env),
        match fst (run (scrapeGoogleSearch query) w) with
        | Ok r => success r = true
        | Throw _ => True
        end
        /\ match fst (run (scrapeGoogleImages query) w) with
           | Ok r => success r = true
           | Throw _ => True
           end
        /\ match fst (run (scrapeGoogleVideos query) w) with
           | Ok r => success r = true
           | Throw _ => True
           end
        /\ match fst (run (scrapeGoogleNews query) w) with
           | Ok r => success r = true
           | Throw _ => True
           end)
  /\ (forall (req : request) (w : env),
        exists resp,
          fst (run (fetch req) w) = Ok resp
          /\ success_field resp <> Some (Json.Bool false)
          /\ (success_field resp = None
              \/ success_field resp = Some (Json.Bool true)
                 /\ status resp = 200%Z)).
Proof.
  split; [|split].
  - intros mo query w.
    destruct mo; unfold_routines; step_calls w; simpl; auto.
  - intros query w.
    repeat split;
      [ apply scrapeGoogleSearch_success | apply scrapeGoogleImages_success
      | apply scrapeGoogleVideos_success | apply scrapeGoogleNews_success ].
  - intros req w.
    assert (H : exists resp,
               fst (run (fetch req) w) = Ok resp
               /\ (success_field resp = None
                   \/ success_field resp = Some (Json.Bool true)
                      /\ status resp = 200%Z)).
    { unfold fetch.
      destruct (String.eqb (method req) "OPTIONS");
        [eexists; split; [reflexivity|left; reflexivity]|].
      destruct (_ || _)%bool;
        [eexists; split; [reflexivity|left; reflexivity]|].
      repeat match goal with
             | |- context [if String.eqb ?a ?b then _ else _] =>
                 destruct (String.eqb a b)
             end;
        try (eexists; split; [reflexivity|left; reflexivity]);
        [ destruct (@endpoint_success _ scrapeGoogleSearch Json.web req w
                      (fun q => scrapeGoogleSearch_success q w))
            as [resp [E H]]
        | destruct (@endpoint_success _ scrapeGoogleImages Json.images req w
                      (fun q => scrapeGoogleImages_success q w))
            as [resp [E H]]
        | destruct (@endpoint_success _ scrapeGoogleVideos Json.videos req w
                      (fun q => scrapeGoogleVideos_success q w))
            as [resp [E H]]
        | destruct (@endpoint_success _ scrapeGoogleNews Json.news req w
                      (fun q => scrapeGoogleNews_success q w))
            as [resp [E H]] ];
        (exists resp; split; [exact E|]; destruct H as [[H _]|H];
         [left; exact H | right; exact H]). }
    destruct H as [resp [E H]]. exists resp. split; [exact E|].
    split; [|exact H].
    destruct H as [H|[H _]]; rewrite H; discriminate.
Qed.

(* ------------------------------------------------------------------ *)
(** *** The dispatch of [fetch] *)

(** One endpoint block in terms of its routine's run. *)
Lemma endpoint_run (D : Type) (scrape_ : string -> M (envelope D))
      (payload : D -> Json.t) (req : request) (w : env) :
  run (endpoint scrape_ payload req) w
  = if Js.truthy (searchParams_get "q" (searchParams req))
    then
      match run (scrape_ (Extract.str (searchParams_get "q" (searchParams req))))
                w with
      | (Ok r, log) =>
          (Ok {| body := Some (Json.envelope payload r); status := 200;
                 headers := jsonHeaders |}, log)
      | (Throw e, log) =>
          (Ok {| body := Some (Json.Obj [("error", Json.Str (message e))]);
                 status := 500; headers := jsonHeaders |}, log)
      end
    else (Ok {| body := Some missing_q; status := 400;
                headers := jsonHeaders |}, []).
Proof.
  unfold run, endpoint.
  destruct (Js.truthy (searchParams_get "q" (searchParams req))); simpl;
    [|reflexivity].
  unfold try_catch, bind, ret.
  destruct (scrape_ _ w []) as [[r|e] log]; reflexivity.
Qed.

(** Split on the path tests of [fetch], naming the path when one holds. *)
Ltac route p :=
  repeat match goal with
         | |- context [String.eqb p ?c] =>
             let E := fresh "E" in
             destruct (String.eqb p c) eqn:E;
             [ apply String.eqb_eq in E; subst p | ]
         end.

(** X1: a request for a path that is neither the health check nor an endpoint
    is answered with status 404 and [{"error": "Endpoint not found"}],
    without any browser call, whatever its parameters. *)
Theorem unknown_path_is_404 (req : request) (w : env) :
  method req <> "OPTIONS" ->
  known_path (pathname req) = false ->
  run (fetch req) w
  = (Ok {| body := Some (Json.Obj [("error", Json.Str "Endpoint not found")]);
           status := 404; headers := jsonHeaders |}, []).
Proof.
  intros Hm Hp. apply String.eqb_neq in Hm.
  unfold known_path, endpoint_path in Hp.
  repeat match goal with
         | H : (_ || _)%bool = false |- _ =>
             apply orb_false_elim in H; destruct H
         end.
  unfold run, fetch. rewrite Hm.
  repeat match goal with
         | H : String.eqb (pathname req) _ = false |- _ => rewrite H; clear H
         end.
  reflexivity.
Qed.

Lemma unknown_path_is_404_trailing_slash :
  run (fetch get_search_slash) calm
  = (Ok {| body := Some (Json.Obj [("error", Json.Str "Endpoint not found")]);
           status := 404; headers := jsonHeaders |}, []).
Proof.
  apply (@unknown_path_is_404 get_search_slash calm).
  - vm_compute. discriminate.
  - vm_compute. reflexivity.
Defined.

(** X2: an OPTIONS request is answered with status 200, no body and the three
    CORS headers only, without any browser call, whatever its path and
    parameters: the endpoints, the health check and unknown paths alike. *)
Theorem options_is_preflight (req : request) (w : env) :
  method req = "OPTIONS" ->
  run (fetch req) w
  = (Ok {| body := None; status := 200; headers := corsHeaders |}, []).
Proof. intros Hm. unfold run, fetch. rewrite Hm. reflexivity. Qed.

Lemma options_is_preflight_news :
  run (fetch options_news) slow
  = (Ok {| body := None; status := 200; headers := corsHeaders |}, []).
Proof.
  apply (@options_is_preflight options_news slow). reflexivity.
Defined.

(** X3: the health check answers [/] and [/health] for every method but
    OPTIONS with status 200 and the service description, without any browser
    call; query parameters, [q] included, are ignored. *)
Theorem health_ignores_parameters (req : request) (w : env) :
  method req <> "OPTIONS" ->
  pathname req = "/" \/ pathname req = "/health" ->
  run (fetch req) w
  = (Ok {| body := Some health; status := 200; headers := jsonHeaders |}, []).
Proof.
  intros Hm Hp. apply String.eqb_neq in Hm.
  unfold run, fetch. rewrite Hm.
  destruct Hp as [-> | ->]; reflexivity.
Qed.

Lemma health_ignores_parameters_post :
  run (fetch post_health_q) no_page
  = (Ok {| body := Some health; status := 200; headers := jsonHeaders |}, []).
Proof.
  apply (@health_ignores_parameters post_health_q no_page).
  - vm_compute. discriminate.
  - right. reflexivity.
Defined.

Lemma flag_log (D : Type) (m : M (envelope D)) (w : env) :
  snd (run (flag m) w) = snd (run m w).
Proof.
  unfold run, flag, bind, ret. destruct (m w []) as [[r|e] log]; reflexivity.
Qed.

Lemma endpoint_log (D : Type) (scrape_ : string -> M (envelope D))
      (payload : D -> Json.t) (req : request) (w : env) :
  snd (run (endpoint scrape_ payload req) w)
  = if Js.truthy (searchParams_get "q" (searchParams req))
    then snd (run (scrape_ (Extract.str (searchParams_get "q"
                                            (searchParams req)))) w)
    else [].
Proof.
  rewrite endpoint_run.
  destruct (Js.truthy _); [|reflexivity].
  destruct (run _ w) as [[r|e] log]; reflexivity.
Qed.

(** X4: [fetch] calls the browser exactly for the requests that are not
    OPTIONS, name one of the four endpoints and carry a non-empty [q]; for
    every other request the log of browser calls is empty. *)
Theorem browser_used_iff (req : request) (w : env) :
  snd (run (fetch req) w) <> []
  <-> (method req <> "OPTIONS"
       /\ endpoint_path (pathname req) = true
       /\ Js.truthy (searchParams_get "q" (searchParams req)) = true).
Proof.
  destruct req as [m p sp]; simpl.
  assert (L : forall mo q, snd (run (scrape mo q) w) <> [])
    by (intros; apply invocation_is_logged).
  pose proof (fun q => L web q) as Lw; pose proof (fun q => L images q) as Li.
  pose proof (fun q => L videos q) as Lv; pose proof (fun q => L news q) as Ln.
  simpl in Lw, Li, Lv, Ln. setoid_rewrite flag_log in Lw.
  setoid_rewrite flag_log in Li. setoid_rewrite flag_log in Lv.
  setoid_rewrite flag_log in Ln. clear L.
  unfold fetch; simpl.
  destruct (String.eqb m "OPTIONS") eqn:Em.
  - apply String.eqb_eq in Em. simpl. split; [congruence|].
    intros [H _]. congruence.
  - apply String.eqb_neq in Em.
    change (fun (w0 : env) (log : list call) => ?f w0 log) with f.
    unfold endpoint_path.
    route p; simpl;
      try (split; [congruence | intros [_ [? _]]; discriminate]);
      fold (run (endpoint scrapeGoogleSearch Json.web
                   {| method := m; pathname := "/search"; searchParams := sp |}) w);
      fold (run (endpoint scrapeGoogleImages Json.images
                   {| method := m; pathname := "/images"; searchParams := sp |}) w);
      fold (run (endpoint scrapeGoogleVideos Json.videos
                   {| method := m; pathname := "/videos"; searchParams := sp |}) w);
      fold (run (endpoint scrapeGoogleNews Json.news
                   {| method := m; pathname := "/news"; searchParams := sp |}) w);
      try rewrite endpoint_log; simpl;
      destruct (Js.truthy (searchParams_get "q" sp)); simpl;
      try (split; [intros _; repeat split; assumption | intros _; auto]);
      try (split; [congruence | intros [_ [_ ?]]; discriminate]).
Qed.

(** X5: every response carries the three CORS headers; the preflight response
    carries nothing else, and every other response (200, 400, 404 or 500)
    adds [Content-Type: application/json]. *)
Theorem response_headers (req : request) (w : env) :
  exists resp,
    fst (run (fetch req) w) = Ok resp
    /\ headers resp
       = (if String.eqb (method req) "OPTIONS" then corsHeaders
          else corsHeaders ++ [("Content-Type", "application/json")])
    /\ incl corsHeaders (headers resp).
Proof.
  assert (Hi : incl corsHeaders jsonHeaders) by (apply incl_appl, incl_refl).
  assert (He : forall (D : Type) (scrape_ : string -> M (envelope D)) payload,
             exists resp,
               fst (run (endpoint scrape_ payload req) w) = Ok resp
               /\ headers resp = jsonHeaders).
  { intros D scrape_ payload. rewrite endpoint_run.
    destruct (Js.truthy _); [|eexists; split; reflexivity].
    destruct (run _ w) as [[r|e] log]; eexists; split; reflexivity. }
  unfold fetch.
  destruct (String.eqb (method req) "OPTIONS").
  - eexists; split; [reflexivity|]. split; [reflexivity|apply incl_refl].
  - destruct (_ || _)%bool;
      [eexists; split; [reflexivity|]; split; [reflexivity|exact Hi]|].
    repeat match goal with
           | |- context [if String.eqb ?a ?b then _ else _] =>
               destruct (String.eqb a b)
           end;
      try (eexists; split; [reflexivity|]; split; [reflexivity|exact Hi]);
      match goal with
      | |- context [endpoint ?f ?p req] =>
          destruct (He _ f p) as [resp [E Hh]]
      end;
      (exists resp; split; [exact E|]; rewrite Hh; split;
       [reflexivity|exact Hi]).
Qed.

(* ------------------------------------------------------------------ *)
(** *** The course of a routine *)

(** X6: a routine resolves only after all seven calls were made, in the fixed
    order launch, newPage, setUserAgent, goto, wait or scroll, evaluate,
    close, each of them resolved; its envelope then holds what the callback
    returned for the rendered document and the clock's time. *)
Theorem resolved_after_all_calls (query : string) (w : env) :
  match run (scrapeGoogleSearch query) w with
  | (Ok r, log) =>
      log = full_log web query /\ answered w [] log = true
      /\ r = {| success := true; timestamp := now w;
                data := Extract.search (document w) |}
  | (Throw _, _) => True
  end
  /\ match run (scrapeGoogleImages query) w with
     | (Ok r, log) =>
         log = full_log images query /\ answered w [] log = true
         /\ r = {| success := true; timestamp := now w;
                   data := Extract.images (document w) |}
     | (Throw _, _) => True
     end
  /\ match run (scrapeGoogleVideos query) w with
     | (Ok r, log) =>
         log = full_log videos query /\ answered w [] log = true
         /\ r = {| success := true; timestamp := now w;
                   data := Extract.videos (document w) |}
     | (Throw _, _) => True
     end
  /\ match run (scrapeGoogleNews query) w with
     | (Ok r, log) =>
         log = full_log news query /\ answered w [] log = true
         /\ r = {| success := true; timestamp := now w;
                   data := Extract.news (document w) |}
     | (Throw _, _) => True
     end.
Proof.
  unfold full_log, searchUrl, settle.
  repeat split; unfold_routines; step_calls w; cbv beta iota; auto;
    (split; [reflexivity|]); (split; [|reflexivity]);
    cbn [answered app];
    repeat match goal with
           | H : rejects w _ ?c = None |- context [rejects w ?l ?c] =>
               replace (rejects w l c) with (@None error)
                 by (symmetry; exact H)
           end;
    reflexivity.
Qed.

(** X7: when a routine rejects, the error it rejects with is the one a browser
    call rejected with: either its last call (launch, newPage, or a close
    that failed), or the call right before a final close that resolved.
    In the second case the error of the failed step is re-raised unchanged;
    when the close of the catch block itself rejects, its error replaces
    the original one. *)
Theorem rejection_comes_from_a_call
        (mo : mode) (query : string) (w : env) (e : error) :
  fst (run (scrape mo query) w) = Throw e ->
  (exists pre c,
      snd (run (scrape mo query) w) = pre ++ [c]
      /\ rejects w pre c = Some e)
  \/ (exists pre c,
         snd (run (scrape mo query) w) = pre ++ [c; close]
         /\ rejects w pre c = Some e
         /\ rejects w (pre ++ [c]) close = None).
Proof.
  revert e.
  destruct mo; unfold_routines; step_calls w; cbv beta iota; cbn [fst snd];
    intros e' He; try discriminate He; inversion He; subst;
    match goal with
    | |- (exists pre c, ?log = pre ++ [c] /\ _) \/ _ =>
        first
          [ left; exists (removelast log), (last log launch);
            split; [reflexivity | assumption]
          | right;
            exists (removelast (removelast log)),
                   (last (removelast log) launch);
            split; [reflexivity | split; assumption] ]
    end.
Qed.

Lemma rejection_comes_from_a_call_no_marker :
  (exists pre c,
      snd (run (scrape news "rocq") no_marker) = pre ++ [c]
      /\ rejects no_marker pre c
         = Some {| message := "Waiting for selector failed: 10000ms exceeded" |})
  \/ (exists pre c,
         snd (run (scrape news "rocq") no_marker) = pre ++ [c; close]
         /\ rejects no_marker pre c
            = Some {| message :=
                        "Waiting for selector failed: 10000ms exceeded" |}
         /\ rejects no_marker (pre ++ [c]) close = None).
Proof.
  apply (@rejection_comes_from_a_call news "rocq" no_marker
           {| message := "Waiting for selector failed: 10000ms exceeded" |}).
  vm_compute. reflexivity.
Defined.

(** X8: once the page is open, and as long as close itself does not reject, a
    routine calls close exactly once, as its last call, whether it resolves
    or rejects. *)
Theorem close_is_last_call (mo : mode) (query : string) (w : env) :
  rejects w [] launch = None ->
  rejects w [launch] newPage = None ->
  (forall log, rejects w log close = None) ->
  closes (snd (run (scrape mo query) w)) = 1
  /\ last (snd (run (scrape mo query) w)) launch = close.
Proof.
  intros Hl Hn Hc.
  destruct mo; unfold_routines; cbv beta iota; rewrite Hl; cbv beta iota;
    cbn [app]; rewrite Hn; cbv beta iota;
    repeat first
      [ rewrite Hc
      | match goal with
        | |- context [rejects w ?l ?c] => destruct (rejects w l c) eqn:?
        end ];
    split; reflexivity.
Qed.

Lemma close_is_last_call_no_marker :
  closes (snd (run (scrape videos "rocq") no_marker)) = 1
  /\ last (snd (run (scrape videos "rocq") no_marker)) launch = close.
Proof.
  apply (@close_is_last_call videos "rocq" no_marker); reflexivity.
Defined.

(** X9: when the browser rejects nothing, a request with a non-empty [q] to an
    endpoint is answered with status 200 and the envelope
    [{success: true, timestamp, data}], [data] being the callback's result
    on the rendered document, whatever that document holds; the browser
    calls are the seven of the mode, the navigation going to the mode's URL
    for the percent-encoded [q]. *)
Theorem fetch_succeeds_when_nothing_rejects
        (mo : mode) (req : request) (w : env) (q : string) :
  method req <> "OPTIONS" ->
  pathname req = path_of mo ->
  searchParams_get "q" (searchParams req) = Some q ->
  q <> "" ->
  (forall log c, rejects w log c = None) ->
  run (fetch req) w
  = (Ok {| body :=
             Some (Json.Obj [("success", Json.Bool true);
                             ("timestamp", Json.Str (now w));
                             ("data", payload_of mo (document w))]);
           status := 200; headers := jsonHeaders |},
     full_log mo q).
Proof.
  intros Hm Hp Hq Hne Hnone. apply String.eqb_neq in Hm.
  destruct q as [|c q]; [congruence|].
  unfold run, fetch. rewrite Hm, Hp.
  destruct mo; cbn [path_of String.eqb Ascii.eqb Bool.eqb orb];
    match goal with
    | |- endpoint ?f ?p req w [] = _ =>
        change (endpoint f p req w []) with (run (endpoint f p req) w)
    end;
    rewrite endpoint_run, Hq; cbn [Js.truthy Js.is_empty negb Extract.str];
    unfold payload_of, full_log, searchUrl, settle, Json.envelope;
    unfold_routines; rewrite !Hnone; reflexivity.
Qed.

Lemma fetch_succeeds_when_nothing_rejects_videos :
  run (fetch delete_videos_cats) calm
  = (Ok {| body :=
             Some (Json.Obj [("success", Json.Bool true);
                             ("timestamp", Json.Str (now calm));
                             ("data", payload_of videos (document calm))]);
           status := 200; headers := jsonHeaders |},
     full_log videos "cats").
Proof.
  apply (@fetch_succeeds_when_nothing_rejects videos delete_videos_cats calm
           "cats").
  - vm_compute. discriminate.
  - reflexivity.
  - reflexivity.
  - discriminate.
  - reflexivity.
Defined.

(* ------------------------------------------------------------------ *)
(** *** The query field *)



End Modes.

(* ================================================================== *)
(** ** What the guards of the callbacks ensure *)

Section Guards.
Import Dom.

Lemma truthy_str (v : Js.ostring) : Js.truthy v = true -> Extract.str v <> "".
Proof. destruct v as [[|c s]|]; simpl; intros H; congruence. Qed.

Lemma Forall_flat_map (A B : Type) (P : B -> Prop) (f : A -> list B)
      (l : list A) :
  (forall a x, In x (f a) -> P x) -> Forall P (flat_map f l).
Proof.
  intros H. apply Forall_forall. intros x Hx.
  apply in_flat_map in Hx. destruct Hx as [a [_ Hx]]. eauto.
Qed.

(** The entry a string-guarded callback pushes has truthy strings. *)
Ltac guarded :=
  apply Forall_flat_map; intros ?e x Hin;
  unfold alone, same, facts_of in Hin;
  cbv [Extract.fact_cb Extract.paa_cb Extract.related_cb
       Extract.inline_video_cb Extract.inline_news_cb Extract.site_link_cb
       Extract.video_cb Extract.article_cb Web.push_fact] in Hin;
  match type of Hin with
  | context [if ?b then _ else _] =>
      let G := fresh "G" in
      destruct b eqn:G; simpl in Hin; [|contradiction];
      destruct Hin as [<-|[]]; simpl;
      try (apply andb_prop in G; destruct G; split);
      match goal with
      | H : Js.truthy ?v = true |- _ => exact (@truthy_str v H)
      end
  end.

(** X12: every entry of the collections whose callback tests the extracted
    strings ([if (title && link)] and the like) has those strings
    non-empty: [title] and [url] of the videos, of the news articles and of
    the inline videos, inline news and site links of the web result, the
    [question] of people-also-ask, [text] and [url] of the related searches,
    [label] and [value] of the knowledge-panel facts. *)
Theorem guarded_entries_are_nonempty (d : document) :
  Forall (fun v => Video.title v <> "" /\ Video.url v <> "")
         (VideosData.videos (Extract.videos d))
  /\ Forall (fun a => Article.title a <> "" /\ Article.url a <> "")
            (NewsData.articles (Extract.news d))
  /\ Forall (fun v => InlineVideo.title v <> "" /\ InlineVideo.url v <> "")
            (Web.videos (Extract.search d))
  /\ Forall (fun n => InlineNews.title n <> "" /\ InlineNews.url n <> "")
            (Web.news (Extract.search d))
  /\ Forall (fun l => SiteLink.title l <> "" /\ SiteLink.url l <> "")
            (Web.siteLinks (Extract.search d))
  /\ Forall (fun q => Question.question q <> "")
            (Web.peopleAlsoAsk (Extract.search d))
  /\ Forall (fun r => Related.text r <> "" /\ Related.url r <> "")
            (Web.relatedSearches (Extract.search d))
  /\ Forall (fun f => Fact.label f <> "" /\ Fact.value f <> "")
            (facts_of (Extract.search d)).
Proof.
  repeat match goal with |- _ /\ _ => split end.
  - unfold Extract.videos; cbn [VideosData.videos].
    rewrite video_forEach_order. guarded.
  - unfold Extract.news; cbn [NewsData.articles].
    rewrite article_forEach_order. guarded.
  - rewrite videos_search. guarded.
  - rewrite news_search. guarded.
  - rewrite siteLinks_search. guarded.
  - rewrite peopleAlsoAsk_search. guarded.
  - rewrite relatedSearches_search. guarded.
  - pose proof (facts_search d) as H.
    destruct (querySelector d Sel.panel).
    + destruct H as [_ ->]. guarded.
    + unfold facts_of. rewrite H. constructor.
Qed.

(** X13: the organic block emits one entry for each matched result block that
    has an [h3] and an [a] below it and skips the others, so the number of
    organic results is the number of such blocks. *)
Theorem organic_results_count (d : document) :
  List.length (Web.organicResults (Extract.search d))
  = List.length (filter titled_and_linked (querySelectorAll d Sel.organic)).
Proof.
  rewrite organicResults_search.
  induction (querySelectorAll d Sel.organic) as [|e l IH]; [reflexivity|].
  cbn [flat_map filter]. rewrite length_app, IH.
  unfold alone at 1, Extract.organic_cb, titled_and_linked, has_below.
  destruct (querySelector_in e Sel.h3), (querySelector_in e Sel.a);
    reflexivity.
Qed.

End Guards.

(* ================================================================== *)
(** ** The query inside the navigation URL *)

Section Encoding.

Lemma hex_digit_unreserved (k : nat) :
  k < 16 -> Js.unreserved (Js.hex_digit k) = true.
Proof.
  intros H.
  do 16 (destruct k as [|k]; [vm_compute; reflexivity|]).
  lia.
Qed.

Lemma nat_of_ascii_bound (c : ascii) : nat_of_ascii c < 256.
Proof.
  destruct c as [[] [] [] [] [] [] [] []]; vm_compute;
    repeat constructor.
Qed.

(** X14: the percent-encoded query consists of unreserved characters and
    percent signs only; so whatever the query, the part it contributes to
    the URL a routine navigates to contains no [&], [=], [#], [?], [/],
    [+] or space, and the URL's parameters are those of the template. *)
Theorem encoded_query_is_inert (query : string) (c : ascii) :
  In c (chars (Js.encodeURIComponent query)) ->
  (Js.unreserved c = true \/ c = "%"%char)
  /\ ~ In c ["&"; "="; "#"; "?"; "/"; "+"; " "]%char.
Proof.
  intros Hin.
  assert (H : Js.unreserved c = true \/ c = "%"%char).
  { induction query as [|a r IH]; [contradiction|].
    cbn [Js.encodeURIComponent] in Hin.
    destruct (Js.unreserved a) eqn:E; cbv zeta in Hin; cbn [chars In] in Hin.
    - destruct Hin as [<-|Hin]; [left; exact E | auto].
    -
      pose proof (nat_of_ascii_bound a) as Hb.
      destruct Hin as [<-|[<-|[<-|Hin]]]; auto; left;
        apply hex_digit_unreserved.
      + apply Nat.Div0.div_lt_upper_bound. lia.
      + apply Nat.mod_upper_bound. lia. }
  split; [exact H|].
  intros Hc. simpl in Hc.
  destruct H as [H | ->].
  - repeat (destruct Hc as [<-|Hc]; [vm_compute in H; discriminate|]).
    contradiction.
  - repeat (destruct Hc as [Hc|Hc]; [discriminate|]). contradiction.
Qed.

Lemma encoded_query_is_inert_percent :
  (Js.unreserved "%" = true \/ "%"%char = "%"%char)
  /\ ~ In "%"%char ["&"; "="; "#"; "?"; "/"; "+"; " "]%char.
Proof.
  apply (@encoded_query_is_inert "a&b=c" "%"%char).
  vm_compute. tauto.
Defined.

End Encoding.
